(** * claude-code-proxy: the request boundary of the Claude-to-OpenAI gateway

    A shallow embedding of [src/api/endpoints.py] and [src/core/config.py]:
    the client-key check, the header masking of the debug log, the token
    estimate, the [/v1/messages] handler with its error paths and the
    diagnostic endpoints.  The collaborators that live in other modules of
    the repository (request and response converters, model manager, backend
    client) are either taken as parameters or, where a property is about
    them, modelled from the design document and marked as such. *)

From Stdlib Require Import ZArith Lia Bool List Ascii String DecimalString.
From stdpp Require Import base option list strings gmap fin_maps.
Import ListNotations.

Local Open Scope string_scope.
Local Open Scope Z_scope.
Set Warnings "-register-all".

(** ** Python values used at the boundary *)

Module Py.

(** [len(s)]: the number of characters of a [str]. *)
Definition len (s : string) : Z := Z.of_nat (String.length s).

(** Truthiness of a [str]: the empty string is falsy. *)
Definition nonempty (s : string) : bool := negb (String.eqb s "").

(** Truthiness of an [Optional[str]]: [None] and [""] are falsy. *)
Definition truthy (o : option string) : bool :=
  match o with
  | Some s => nonempty s
  | None => false
  end.

(** [s.startswith(p)]. *)
Definition startswith (p s : string) : bool := String.prefix p s.

(** [s.replace(old, "")] for a non-empty [old]: every non-overlapping
    occurrence of [old], scanning from the left, is removed.  [skip] counts
    the characters of a matched occurrence that are still to be dropped. *)
Fixpoint remove_go (old : string) (skip : nat) (s : string) : string :=
  match s with
  | EmptyString => EmptyString
  | String c rest =>
      match skip with
      | S k => remove_go old k rest
      | O =>
          if String.prefix old s
          then remove_go old (Nat.pred (String.length old)) rest
          else String c (remove_go old O rest)
      end
  end.

Definition remove_all (old s : string) : string := remove_go old O s.

(** [s.lower()] on the ASCII letters. *)
Definition lower_ascii (c : ascii) : ascii :=
  let n := nat_of_ascii c in
  if (Nat.leb 65 n && Nat.leb n 90)%bool then ascii_of_nat (n + 32) else c.

Fixpoint lower (s : string) : string :=
  match s with
  | EmptyString => EmptyString
  | String c rest => String (lower_ascii c) (lower rest)
  end.

(** [sub in s]: [sub] occurs in [s] as a contiguous substring. *)
Fixpoint contains (sub s : string) : bool :=
  if String.prefix sub s then true
  else match s with
       | EmptyString => false
       | String _ rest => contains sub rest
       end.

(** JSON-like values: what a handler returns as a body.  A [dict] literal
    keeps the order in which its keys are written. *)
Inductive json : Type :=
| JNull
| JBool (b : bool)
| JInt (n : Z)
| JStr (s : string)
| JList (items : list json)
| JObj (fields : list (string * json)).

(** [d.get(k)] on a dict given by its items. *)
Fixpoint assoc_get (k : string) (fields : list (string * json)) : option json :=
  match fields with
  | [] => None
  | (k', v) :: rest => if String.eqb k k' then Some v else assoc_get k rest
  end.

Definition dict_get (k : string) (d : json) : option json :=
  match d with
  | JObj fields => assoc_get k fields
  | _ => None
  end.

(** [str(n)] for an [int]. *)
Definition str_of_int (n : Z) : string :=
  NilEmpty.string_of_int (Z.to_int n).

(** A raised exception as the handlers see it: whether it is an
    [HTTPException] (then with its status code and detail), what [str(e)]
    gives, and whether its class derives from [Exception]; an
    [asyncio.CancelledError], a [KeyboardInterrupt] or a [SystemExit] does
    not, and no [except Exception] clause catches it. *)
Record exc : Type := Exc {
  exc_http : option (Z * string);
  exc_str : string;
  exc_is_exception : bool
}.

(** [HTTPException(status_code=..., detail=...)]; its [str] is Starlette's
    rendering, the status code followed by the detail. *)
Definition HTTPException (status : Z) (detail : string) : exc :=
  {| exc_http := Some (status, detail);
     exc_str := str_of_int status +:+ ": " +:+ detail;
     exc_is_exception := true |}.

(** [isinstance(e, Exception)]: what a clause [except Exception] catches;
    an [HTTPException] is one. *)
Definition is_exception (e : exc) : bool :=
  match exc_http e with
  | Some _ => true
  | None => exc_is_exception e
  end.

(** The result of running a block of code: a value or a raised exception. *)
Inductive outcome (A : Type) : Type :=
| Ret (a : A)
| Raise (e : exc).
Arguments Ret {A} a.
Arguments Raise {A} e.

End Py.
Import Py.

(** ** Configuration ([src/core/config.py]) *)

Record Config : Type := {
  openai_api_key : option string;
  anthropic_api_key : option string;
  openai_base_url : string;
  small_model_base_url : string;
  small_model_api_key : option string;
  max_tokens_limit : Z;
  min_tokens_limit : Z;
  big_model : string;
  middle_model : string;
  small_model : string
}.

(** The values [Config.__init__] takes when only [OPENAI_API_KEY] is set. *)
Definition default_config (key : string) : Config :=
  {| openai_api_key := Some key;
     anthropic_api_key := None;
     openai_base_url := "https://api.openai.com/v1";
     small_model_base_url := "https://api.openai.com/v1";
     small_model_api_key := Some key;
     max_tokens_limit := 4096;
     min_tokens_limit := 100;
     big_model := "gpt-4o";
     middle_model := "gpt-4o";
     small_model := "gpt-4o-mini" |}.

(** [Config.validate_client_api_key]. *)
Definition validate_client_api_key (cfg : Config) (client_api_key : string) : bool :=
  if negb (truthy (anthropic_api_key cfg)) then true
  else match anthropic_api_key cfg with
       | Some k => String.eqb client_api_key k
       | None => false
       end.

(** ** The client-key check ([validate_api_key] of [endpoints.py]) *)

Module Auth.

(** The key the check extracts from the two headers. *)
Definition client_api_key (x_api_key authorization : option string) : option string :=
  if truthy x_api_key then x_api_key
  else match authorization with
       | Some a =>
           if (nonempty a && startswith "Bearer " a)%bool
           then Some (remove_all "Bearer " a)
           else None
       | None => None
       end.

Definition invalid_key_detail : string :=
  "Invalid API key. Please provide a valid Anthropic API key.".

(** [validate_api_key]: returns normally or raises the 401. *)
Definition validate_api_key (cfg : Config) (x_api_key authorization : option string)
  : outcome unit :=
  let key := client_api_key x_api_key authorization in
  if negb (truthy (anthropic_api_key cfg)) then Ret tt
  else
    let rejected :=
      match key with
      | Some k => (negb (nonempty k) || negb (validate_client_api_key cfg k))%bool
      | None => true
      end in
    if rejected then Raise (HTTPException 401 invalid_key_detail) else Ret tt.

Definition raises_401 (r : outcome unit) : bool :=
  match r with
  | Raise e => match exc_http e with
               | Some (401, _) => true
               | _ => false
               end
  | Ret _ => false
  end.

(** The extraction as the documentation words it: the [x-api-key] header
    when it is there, otherwise what follows the ["Bearer "] prefix of the
    [Authorization] header. *)
Definition after_prefix (p s : string) : string :=
  String.substring (String.length p) (String.length s - String.length p) s.

Definition documented_client_key (x_api_key authorization : option string)
  : option string :=
  if truthy x_api_key then x_api_key
  else match authorization with
       | Some a => if startswith "Bearer " a then Some (after_prefix "Bearer " a) else None
       | None => None
       end.

(** The documented decision: a 401 exactly when a key is configured and the
    extracted key is absent or differs from it. *)
Definition documented_rejects (cfg : Config) (x_api_key authorization : option string)
  : bool :=
  match anthropic_api_key cfg with
  | Some expected =>
      (nonempty expected &&
       match documented_client_key x_api_key authorization with
       | Some k => negb (String.eqb k expected)
       | None => true
       end)%bool
  | None => false
  end.

End Auth.

(** ** The header log of [create_message] *)

Module Headers.

(** The keys whose value the comprehension keeps. *)
Definition unmasked_keys : list string := ["Authorization"; "x-api-key"; "meta-data"].

(** [k in ("Authorization", "x-api-key", "meta-data")]. *)
Definition is_unmasked (k : string) : bool :=
  existsb (String.eqb k) unmasked_keys.

(** The value expression of the comprehension. *)
Definition logged_value (k v : string) : string :=
  if is_unmasked k then v else "*****".

(** The dict comprehension over [headers.items()]: the items are visited in
    order and each one stores under its key, a later item with the same key
    overwriting the earlier one. *)
Definition masked_headers (items : list (string * string)) : gmap string string :=
  fold_left (fun d kv => <[kv.1 := logged_value kv.1 kv.2]> d) items ∅.

(** [http_request.headers.items()]: Starlette hands the header names over
    in lower case, whatever their spelling on the wire, with the values as
    they were sent. *)
Definition items (raw : list (string * string)) : list (string * string) :=
  map (fun kv => (lower kv.1, kv.2)) raw.

(** The value [headers.items()] gives last for a key, if any. *)
Fixpoint last_value (k : string) (items : list (string * string)) : option string :=
  match items with
  | [] => None
  | (k', v) :: rest =>
      match last_value k rest with
      | Some w => Some w
      | None => if String.eqb k k' then Some v else None
      end
  end.

End Headers.

(** ** The request model (the classes of [src/models/claude.py] as the
    handlers use them) *)

Module Claude.

(** A typed content block.  Only a text block has a [text] attribute. *)
Inductive ContentBlock : Type :=
| TextBlock (text : string)
| ImageBlock (source : json)
| ToolUseBlock (id name : string) (input : json)
| ToolResultBlock (tool_use_id : string) (content : json).

(** [getattr(block, "text", None)]. *)
Definition block_text (b : ContentBlock) : option string :=
  match b with
  | TextBlock t => Some t
  | _ => None
  end.

(** A [str] or a list of blocks: the type of [system] and of a message's
    [content]. *)
Inductive Content : Type :=
| Str (s : string)
| Blocks (bs : list ContentBlock).

Record ClaudeMessage : Type := {
  role : string;
  content : option Content
}.

Record ClaudeMessagesRequest : Type := {
  model : string;
  max_tokens : Z;
  messages : list ClaudeMessage;
  system : option Content;
  stream : bool
}.

End Claude.
Import Claude.

(** ** The token estimate ([count_tokens]) *)

Module Tokens.

Record ClaudeTokenCountRequest : Type := {
  model : string;
  messages : list ClaudeMessage;
  system : option Content
}.

(** The loop body over the blocks of [request.system]:
    [if hasattr(block, "text"): total_chars += len(block.text)]. *)
Definition add_system_block (total_chars : Z) (block : ContentBlock) : Z :=
  match block_text block with
  | Some t => total_chars + len t
  | None => total_chars
  end.

(** The loop body over the blocks of a message:
    [if getattr(block, "text", None) is not None: total_chars += len(...)]. *)
Definition add_message_block (total_chars : Z) (block : ContentBlock) : Z :=
  match block_text block with
  | Some t => total_chars + len t
  | None => total_chars
  end.

(** [if request.system: ...]: an empty string and an empty list are falsy. *)
Definition count_system (system : option Content) (total_chars : Z) : Z :=
  match system with
  | None => total_chars
  | Some (Str s) => if nonempty s then total_chars + len s else total_chars
  | Some (Blocks []) => total_chars
  | Some (Blocks bs) => fold_left add_system_block bs total_chars
  end.

(** The body of [for msg in request.messages]. *)
Definition add_message (total_chars : Z) (msg : ClaudeMessage) : Z :=
  match content msg with
  | None => total_chars
  | Some (Str s) => total_chars + len s
  | Some (Blocks bs) => fold_left add_message_block bs total_chars
  end.

Definition total_chars (request : ClaudeTokenCountRequest) : Z :=
  fold_left add_message (messages request) (count_system (system request) 0).

(** [max(1, total_chars // 4)]. *)
Definition estimated_tokens (request : ClaudeTokenCountRequest) : Z :=
  Z.max 1 (total_chars request / 4).

(** The value the endpoint returns. *)
Definition count_tokens (request : ClaudeTokenCountRequest) : json :=
  JObj [("input_tokens", JInt (estimated_tokens request))].

(** The clause [except Exception as e] of the endpoint: what leaves the
    endpoint when its body raises [e]. *)
Definition count_tokens_except (e : exc) : exc :=
  if is_exception e then HTTPException 500 (exc_str e) else e.

(** *** The estimate as the description words it *)

(** The characters of the text-bearing blocks of a list. *)
Definition text_chars (bs : list ContentBlock) : Z :=
  fold_right Z.add 0 (map (fun b => from_option len 0 (block_text b)) bs).

Definition content_chars (c : option Content) : Z :=
  match c with
  | None => 0
  | Some (Str s) => len s
  | Some (Blocks bs) => text_chars bs
  end.

Definition described_chars (request : ClaudeTokenCountRequest) : Z :=
  content_chars (system request)
  + fold_right Z.add 0 (map (fun m => content_chars (content m)) (messages request)).

(** A request with every block that is not a text block taken out. *)
Definition is_text_block (b : ContentBlock) : bool :=
  match b with
  | TextBlock _ => true
  | _ => false
  end.

Definition text_only (c : option Content) : option Content :=
  match c with
  | Some (Blocks bs) => Some (Blocks (List.filter is_text_block bs))
  | other => other
  end.

Definition without_non_text (request : ClaudeTokenCountRequest) : ClaudeTokenCountRequest :=
  {| model := model request;
     messages := map (fun m => {| role := role m; content := text_only (content m) |})
                     (messages request);
     system := text_only (system request) |}.

End Tokens.

(** ** Model routing and the generation parameters of the backend request

    [src/core/model_manager.py] and [src/conversion/request_converter.py]
    are not part of the sources at hand; the definitions of this module
    follow the design document. *)

Module Translator.

Inductive Tier : Type := Small | Middle | Large.

(** Modelled from the spec: the size hints of the model router, which lives
    in the missing [model_manager].  The design names "haiku" for the small
    tier; the help text of [main.py] pairs haiku, sonnet and opus with the
    small, middle and big model. *)
Definition size_hints : list (string * Tier) :=
  [("haiku", Small); ("sonnet", Middle); ("opus", Large)].

(** Modelled from the spec: the hint chosen for an identifier by the missing
    router, "case-insensitive containment, longest/most-specific match
    wins". *)
Definition hint_matches (identifier : string) (h : string * Tier) : bool :=
  contains h.1 (lower identifier).

Definition longer (best : option (string * Tier)) (h : string * Tier)
  : option (string * Tier) :=
  match best with
  | None => Some h
  | Some b => if (String.length b.1 <? String.length h.1)%nat then Some h else Some b
  end.

Definition matched_hint (identifier : string) : option (string * Tier) :=
  fold_left longer (List.filter (hint_matches identifier) size_hints) None.

(** Modelled from the spec: the tier of the missing router; "unmatched
    identifiers default to middle". *)
Definition route_tier (identifier : string) : Tier :=
  match matched_hint identifier with
  | Some (_, t) => t
  | None => Middle
  end.

Definition tier_model (cfg : Config) (t : Tier) : string :=
  match t with
  | Small => small_model cfg
  | Middle => middle_model cfg
  | Large => big_model cfg
  end.

(** Modelled from the spec: the resolved backend model of the missing
    [map_claude_model_to_openai]. *)
Definition map_claude_model_to_openai (cfg : Config) (identifier : string) : string :=
  tier_model cfg (route_tier identifier).

(** Modelled from the spec: the clamping of the missing request converter,
    "a requested max-token value above the configured ceiling is clamped to
    the ceiling; a value below the configured floor is clamped to the
    floor". *)
Definition clamp_max_tokens (cfg : Config) (requested : Z) : Z :=
  if max_tokens_limit cfg <? requested then max_tokens_limit cfg
  else if requested <? min_tokens_limit cfg then min_tokens_limit cfg
  else requested.

Definition invalid_request (why : string) : exc :=
  {| exc_http := None; exc_str := "InvalidRequest: " +:+ why; exc_is_exception := true |}.

(** Modelled from the spec: the missing [convert_claude_to_openai], as far
    as the model, the token limit and the streaming flag go.  It "fails with
    InvalidRequest when required fields (model, at least one message) are
    absent, or content-block structure is unrecognized"; the translation of
    the messages themselves is the parameter [translate_messages]. *)
Definition convert_claude_to_openai
    (cfg : Config) (translate_messages : list ClaudeMessage -> outcome json)
    (request : ClaudeMessagesRequest) : outcome (list (string * json)) :=
  if negb (nonempty (model request)) then Raise (invalid_request "model")
  else match messages request with
       | [] => Raise (invalid_request "messages")
       | _ =>
           match translate_messages (messages request) with
           | Raise e => Raise e
           | Ret msgs =>
               Ret [("model", JStr (map_claude_model_to_openai cfg (model request)));
                    ("messages", msgs);
                    ("max_tokens", JInt (clamp_max_tokens cfg (max_tokens request)));
                    ("stream", JBool (stream request))]
           end
       end.

Definition with_max_tokens (request : ClaudeMessagesRequest) (v : Z)
  : ClaudeMessagesRequest :=
  {| model := model request; max_tokens := v; messages := messages request;
     system := system request; stream := stream request |}.

Definition is_ret {A : Type} (r : outcome A) : bool :=
  match r with
  | Ret _ => true
  | Raise _ => false
  end.

(** The token limit carried by a translated request. *)
Definition translated_max_tokens (r : outcome (list (string * json))) : option Z :=
  match r with
  | Ret fields => match assoc_get "max_tokens" fields with
                  | Some (JInt n) => Some n
                  | _ => None
                  end
  | Raise _ => None
  end.

End Translator.

(** ** The endpoints ([src/api/endpoints.py]) *)

Module Endpoints.

(** The two client objects the module creates when it is loaded. *)
Inductive ClientObject : Type := MainClient | SeparateSmallClient.

Definition opt_string_eqb (a b : option string) : bool :=
  match a, b with
  | Some x, Some y => String.eqb x y
  | None, None => true
  | _, _ => false
  end.

Definition openai_client : ClientObject := MainClient.

(** [small_model_client]: a client of its own when the small model has a
    base URL or a key of its own, the main client otherwise. *)
Definition small_model_client (cfg : Config) : ClientObject :=
  if (negb (String.eqb (small_model_base_url cfg) (openai_base_url cfg))
      || negb (opt_string_eqb (small_model_api_key cfg) (openai_api_key cfg)))%bool
  then SeparateSmallClient
  else openai_client.

(** What a handler hands to the framework. *)
Inductive Response : Type :=
| JSONResponse (status_code : Z) (content : json)
| StreamingResponse (events : list string) (media_type : string)
                    (headers : list (string * string))
| PlainTextResponse (status_code : Z) (text : string)
| EmptyResponse (status_code : Z)
| Unanswered (e : exc).

(** What a handler does besides returning. *)
Inductive Effect : Type :=
| LogHeaders (masked : gmap string string)
| LogError (text : string)
| BackendCall (client : ClientObject) (streaming : bool).

(** The collaborators of the handlers: the converters, the backend client
    methods, the connection state of the caller and the clock. *)
Record World : Type := {
  convert_claude_to_openai : ClaudeMessagesRequest -> outcome (list (string * json));
  is_disconnected : bool;
  create_chat_completion : ClientObject -> list (string * json) -> outcome (list (string * json));
  create_chat_completion_stream : ClientObject -> list (string * json) -> outcome (list json);
  convert_openai_streaming_to_claude_with_cancellation :
    list json -> ClaudeMessagesRequest -> ClientObject -> list string;
  convert_openai_to_claude_response :
    list (string * json) -> ClaudeMessagesRequest -> outcome json;
  classify_openai_error : ClientObject -> string -> string;
  format_exc : exc -> string;
  now_isoformat : string
}.

(** The error body built on the streaming path. *)
Definition error_response (kind message : string) : json :=
  JObj [("type", JStr "error");
        ("error", JObj [("type", JStr kind); ("message", JStr message)])].

(** [{"type": "error", "error": {"type": <kind>, "message": <text>}}]. *)
Definition is_error_envelope (j : json) : bool :=
  match j with
  | JObj [("type", JStr "error");
          ("error", JObj [("type", JStr _); ("message", JStr _)])] => true
  | _ => false
  end.

Definition envelope_kind (j : json) : option string :=
  match j with
  | JObj [("type", JStr "error");
          ("error", JObj [("type", JStr kind); ("message", JStr _)])] => Some kind
  | _ => None
  end.

Definition stream_headers : list (string * string) :=
  [("Cache-Control", "no-cache"); ("Connection", "keep-alive");
   ("Access-Control-Allow-Origin", "*"); ("Access-Control-Allow-Headers", "*")].

(** The two outer clauses of [create_message]: an [HTTPException] is raised
    again as it is; any other [Exception] is logged with its traceback and
    replaced by a 500 whose detail is the classified text; what is not an
    [Exception] is caught by neither clause and leaves the handler. *)
Definition outer_except (W : World) (e : exc) : list Effect * outcome Response :=
  match exc_http e with
  | Some _ => ([], Raise e)
  | None =>
      if exc_is_exception e
      then ([LogError ("Unexpected error processing request: " +:+ exc_str e);
             LogError (format_exc W e)],
            Raise (HTTPException 500 (classify_openai_error W openai_client (exc_str e))))
      else ([], Raise e)
  end.

(** The clause [except HTTPException as e] around the streaming branch. *)
Definition streaming_except (W : World) (current_client : ClientObject)
    (e : exc) (status : Z) (detail : string) : list Effect * outcome Response :=
  ([LogError ("Streaming error: " +:+ detail); LogError (format_exc W e)],
   Ret (JSONResponse status
          (error_response "api_error" (classify_openai_error W current_client detail)))).

Definition after (pre : list Effect) (r : list Effect * outcome Response)
  : list Effect * outcome Response :=
  ((pre ++ r.1)%list, r.2).

(** [is_small_model = openai_model == config.small_model]. *)
Definition is_small_model (cfg : Config) (openai_request : list (string * json)) : bool :=
  match assoc_get "model" openai_request with
  | Some (JStr m) => String.eqb m (small_model cfg)
  | _ => false
  end.

Definition current_client (cfg : Config) (openai_request : list (string * json))
  : ClientObject :=
  if is_small_model cfg openai_request then small_model_client cfg else openai_client.

(** [create_message]. *)
Definition create_message (cfg : Config) (W : World)
    (request : ClaudeMessagesRequest) (headers : list (string * string))
  : list Effect * outcome Response :=
  after [LogHeaders (Headers.masked_headers headers)]
    match convert_claude_to_openai W request with
    | Raise e => outer_except W e
    | Ret openai_request =>
        let client := current_client cfg openai_request in
        if is_disconnected W
        then outer_except W (HTTPException 499 "Client disconnected")
        else if stream request then
          after [BackendCall client true]
            match create_chat_completion_stream W client openai_request with
            | Ret openai_stream =>
                ([], Ret (StreamingResponse
                            (convert_openai_streaming_to_claude_with_cancellation
                               W openai_stream request client)
                            "text/event-stream" stream_headers))
            | Raise e =>
                match exc_http e with
                | Some (status, detail) => streaming_except W client e status detail
                | None => outer_except W e
                end
            end
        else
          after [BackendCall client false]
            match create_chat_completion W client openai_request with
            | Raise e => outer_except W e
            | Ret openai_response =>
                match convert_openai_to_claude_response W openai_response request with
                | Raise e => outer_except W e
                | Ret claude_response => ([], Ret (JSONResponse 200 claude_response))
                end
            end
    end.

(** [test_connection]. *)
Definition test_request (cfg : Config) : list (string * json) :=
  [("model", JStr (small_model cfg));
   ("messages", JList [JObj [("role", JStr "user"); ("content", JStr "Hello")]]);
   ("max_tokens", JInt 5)].

(** The body that the clause [except Exception as e] of [test_connection]
    returns. *)
Definition connection_failed (W : World) (e : exc) : Response :=
  JSONResponse 503
    (JObj [("status", JStr "failed");
           ("error_type", JStr "API Error");
           ("message", JStr (exc_str e));
           ("timestamp", JStr (now_isoformat W));
           ("suggestions",
            JList [JStr "Check your OPENAI_API_KEY is valid";
                   JStr "Verify your API key has the necessary permissions";
                   JStr "Check if you have reached rate limits"])]).

Definition test_connection (cfg : Config) (W : World) : outcome Response :=
  match create_chat_completion W openai_client (test_request cfg) with
  | Ret test_response =>
      Ret (JSONResponse 200
             (JObj [("status", JStr "success");
                    ("message", JStr "Successfully connected to OpenAI API");
                    ("model_used", JStr (small_model cfg));
                    ("timestamp", JStr (now_isoformat W));
                    ("response_id",
                     default (JStr "unknown") (assoc_get "id" test_response))]))
  | Raise e =>
      if is_exception e then Ret (connection_failed W e) else Raise e
  end.

(** *** The framework around a handler *)

(** FastAPI's handler of an [HTTPException]: the detail under the key
    ["detail"], with the status of the exception; no body for the statuses
    that cannot carry one. *)
Definition body_allowed (status : Z) : bool :=
  negb ((status <? 200) || (status =? 204) || (status =? 205) || (status =? 304))%bool.

Definition http_exception_handler (status : Z) (detail : string) : Response :=
  if body_allowed status
  then JSONResponse status (JObj [("detail", JStr detail)])
  else EmptyResponse status.

(** What the caller is sent for the outcome of a handler: the response it
    returned, the framework's answer to an [HTTPException], the server's
    plain 500 for another [Exception]; an exception outside [Exception]
    ends the request without an answer. *)
Definition respond (r : outcome Response) : Response :=
  match r with
  | Ret resp => resp
  | Raise e =>
      match exc_http e with
      | Some (status, detail) => http_exception_handler status detail
      | None =>
          if exc_is_exception e
          then PlainTextResponse 500 "Internal Server Error"
          else Unanswered e
      end
  end.

(** [POST /v1/messages]: the key check, then the handler. *)
Definition post_v1_messages (cfg : Config) (W : World)
    (x_api_key authorization : option string)
    (request : ClaudeMessagesRequest) (headers : list (string * string)) : Response :=
  match Auth.validate_api_key cfg x_api_key authorization with
  | Raise e => respond (Raise e)
  | Ret _ => respond (create_message cfg W request headers).2
  end.

(** [POST /v1/messages/count_tokens] when its body raises [e]. *)
Definition count_tokens_failure (e : exc) : Response :=
  respond (Raise (Tokens.count_tokens_except e)).

(** The JSON body of a response, if it has one. *)
Definition json_body (r : Response) : option json :=
  match r with
  | JSONResponse _ content => Some content
  | _ => None
  end.

Definition has_payload (r : Response) : bool :=
  match r with
  | EmptyResponse _ | Unanswered _ => false
  | _ => true
  end.

(** The message text an error body carries, under whichever key. *)
Definition error_text (r : Response) : option string :=
  match r with
  | JSONResponse _ (JObj fields) =>
      match assoc_get "detail" fields, assoc_get "message" fields, assoc_get "error" fields with
      | Some (JStr d), _, _ => Some d
      | _, Some (JStr m), _ => Some m
      | _, _, Some (JObj inner) =>
          match assoc_get "message" inner with
          | Some (JStr m) => Some m
          | _ => None
          end
      | _, _, _ => None
      end
  | _ => None
  end.

Definition backend_calls (effects : list Effect) : list Effect :=
  List.filter (fun ef => match ef with BackendCall _ _ => true | _ => false end) effects.

(** The same collaborators with another rendering of tracebacks. *)
Definition with_format_exc (W : World) (render : exc -> string) : World :=
  {| convert_claude_to_openai := convert_claude_to_openai W;
     is_disconnected := is_disconnected W;
     create_chat_completion := create_chat_completion W;
     create_chat_completion_stream := create_chat_completion_stream W;
     convert_openai_streaming_to_claude_with_cancellation :=
       convert_openai_streaming_to_claude_with_cancellation W;
     convert_openai_to_claude_response := convert_openai_to_claude_response W;
     classify_openai_error := classify_openai_error W;
     format_exc := render;
     now_isoformat := now_isoformat W |}.

(** Modelled from the spec: the kind the error taxonomy of the design gives
    a backend status code ("401 -> authentication, 403 -> permission,
    404 -> not_found, 429 -> rate_limit", [api_error] being the default);
    the classifier of the missing [src/core/client.py] returns a message
    only. *)
Definition taxonomy_kind (status : Z) : string :=
  if status =? 401 then "authentication"
  else if status =? 403 then "permission"
  else if status =? 404 then "not_found"
  else if status =? 429 then "rate_limit"
  else "api_error".

End Endpoints.

(** ** The streaming translator

    [src/conversion/response_converter.py], which [create_message] calls for
    a streaming request, is not part of the sources at hand; the state
    machine below follows section 4.4 of the design document. *)

Module StreamTranslator.

Record ToolFragment : Type := {
  call_id : string;
  name_fragment : string;
  arguments_fragment : string
}.

(** A backend chunk: an optional role, text fragment, tool-call fragment
    and terminal reason. *)
Record Chunk : Type := {
  chunk_role : option string;
  text_fragment : option string;
  tool_fragment : option ToolFragment;
  finish_reason : option string
}.

(** What the translator meets while it reads upstream. *)
Inductive Upstream : Type :=
| Received (c : Chunk)
| IdleInterval
| UpstreamRaised (message : string)
| Disconnected.

Inductive BlockKind : Type :=
| TextKind
| ToolUseKind (id : string).

(** The caller-facing events. *)
Inductive Event : Type :=
| MessageStart (role : string)
| ContentBlockStart (index : nat) (kind : BlockKind)
| ContentBlockDelta (index : nat) (payload : string)
| ContentBlockStop (index : nat)
| MessageDelta (stop_reason : string)
| MessageStop
| Ping
| ErrorEvent (message : string)
| CancelledEvent.

Inductive Phase : Type := Idle | MessageOpen | Done | Cancelled.

Record State : Type := {
  phase : Phase;
  next_index : nat;
  open_block : option (nat * BlockKind);
  buffer : string
}.

Definition initial : State :=
  {| phase := Idle; next_index := 0%nat; open_block := None; buffer := "" |}.

Definition is_terminal (s : State) : bool :=
  match phase s with
  | Done | Cancelled => true
  | _ => false
  end.

(** Modelled from the spec: the fixed stop-reason table of the missing
    response converter: "length-limit -> max_tokens, tool-call -> tool_use,
    normal completion -> end_turn; unknown reasons map to end_turn". *)
Definition map_stop_reason (reason : string) : string :=
  if String.eqb reason "length" then "max_tokens"
  else if String.eqb reason "tool_calls" then "tool_use"
  else "end_turn".

(** Modelled from the spec: closing the open block of the missing stream
    translator.  With [flush], the buffered arguments of a tool-use block go
    out as a last delta first. *)
Definition close_open (flush : bool) (s : State) : State * list Event :=
  match open_block s with
  | None => (s, [])
  | Some (i, kind) =>
      ({| phase := phase s; next_index := next_index s; open_block := None; buffer := "" |},
       match kind, flush with
       | ToolUseKind _, true => [ContentBlockDelta i (buffer s); ContentBlockStop i]
       | _, _ => [ContentBlockStop i]
       end)
  end.

(** Modelled from the spec: opening a block of the missing stream
    translator at the next index. *)
Definition open_new (kind : BlockKind) (s : State) : State * list Event :=
  ({| phase := phase s; next_index := S (next_index s);
      open_block := Some (next_index s, kind); buffer := "" |},
   [ContentBlockStart (next_index s) kind]).

(** Modelled from the spec: the missing stream translator moving on to a
    new block: "close any open block at the current index, open a new block
    at the next index". *)
Definition reopen (kind : BlockKind) (s : State) : State * list Event :=
  let (s1, closing) := close_open false s in
  let (s2, opening) := open_new kind s1 in
  (s2, (closing ++ opening)%list).

(** Modelled from the spec: a text fragment met by the missing stream
    translator is "emitted as a delta on the currently open text block,
    opening one if none is open".  The design is silent on a text fragment
    that arrives while a tool-use block is open; here that block is closed
    and a text block opened at the next index. *)
Definition on_text (fragment : string) (s : State) : State * list Event :=
  match open_block s with
  | Some (i, TextKind) => (s, [ContentBlockDelta i fragment])
  | _ =>
      let (s1, es) := reopen TextKind s in
      (s1, (es ++ [ContentBlockDelta (next_index s) fragment])%list)
  end.

Definition same_call (id : string) (s : State) : option nat :=
  match open_block s with
  | Some (i, ToolUseKind id') => if String.eqb id id' then Some i else None
  | _ => None
  end.

(** Modelled from the spec: a tool-call fragment met by the missing stream
    translator is "routed by call id: if the id is new, close any open
    block, open a new tool-use block at the next index keyed by that id,
    and buffer the fragments; if the id matches an already-open block,
    append the fragment to its buffer and emit a delta". *)
Definition on_tool (f : ToolFragment) (s : State) : State * list Event :=
  match same_call (call_id f) s with
  | Some i =>
      ({| phase := phase s; next_index := next_index s; open_block := open_block s;
          buffer := buffer s +:+ arguments_fragment f |},
       [ContentBlockDelta i (arguments_fragment f)])
  | None =>
      let (s1, es) := reopen (ToolUseKind (call_id f)) s in
      ({| phase := phase s1; next_index := next_index s1; open_block := open_block s1;
          buffer := arguments_fragment f |},
       es)
  end.

(** Modelled from the spec: a terminal chunk met by the missing stream
    translator: "close the currently open content block, emit the
    message-delta event carrying the mapped stop reason, then emit
    message-closed and transition to Done". *)
Definition on_finish (reason : string) (s : State) : State * list Event :=
  let (s1, closing) := close_open true s in
  ({| phase := Done; next_index := next_index s1; open_block := None; buffer := "" |},
   closing ++ [MessageDelta (map_stop_reason reason); MessageStop])%list.

Definition optionally {A : Type} (f : A -> State -> State * list Event)
    (o : option A) (s : State) : State * list Event :=
  match o with
  | Some a => f a s
  | None => (s, [])
  end.

(** The payload of a chunk: its text, then its tool fragment, then its
    terminal reason. *)
Definition on_payload (c : Chunk) (s : State) : State * list Event :=
  let (s1, e1) := optionally on_text (text_fragment c) s in
  let (s2, e2) := optionally on_tool (tool_fragment c) s1 in
  let (s3, e3) := optionally on_finish (finish_reason c) s2 in
  (s3, e1 ++ e2 ++ e3)%list.

(** Modelled from the spec: one step of the missing stream translator.
    The message opens "on the first upstream chunk carrying a role"; a
    chunk without a role before that is passed over.  An idle interval
    gives a keep-alive "that does not affect block state".  Disconnection
    and an upstream failure close the open block and end the stream with
    their terminal event; once the stream has ended every further input is
    a no-op. *)
Definition step (s : State) (u : Upstream) : State * list Event :=
  match phase s with
  | Done | Cancelled => (s, [])
  | Idle =>
      match u with
      | Received c =>
          match chunk_role c with
          | Some r =>
              let (s1, es) :=
                on_payload c {| phase := MessageOpen; next_index := next_index s;
                                open_block := open_block s; buffer := buffer s |} in
              (s1, MessageStart r :: es)
          | None => (s, [])
          end
      | IdleInterval => (s, [Ping])
      | UpstreamRaised m =>
          ({| phase := Done; next_index := next_index s; open_block := None; buffer := "" |},
           (close_open false s).2 ++ [ErrorEvent m])%list
      | Disconnected =>
          ({| phase := Cancelled; next_index := next_index s; open_block := None; buffer := "" |},
           (close_open false s).2 ++ [CancelledEvent])%list
      end
  | MessageOpen =>
      match u with
      | Received c => on_payload c s
      | IdleInterval => (s, [Ping])
      | UpstreamRaised m =>
          ({| phase := Done; next_index := next_index s; open_block := None; buffer := "" |},
           (close_open false s).2 ++ [ErrorEvent m])%list
      | Disconnected =>
          ({| phase := Cancelled; next_index := next_index s; open_block := None; buffer := "" |},
           (close_open false s).2 ++ [CancelledEvent])%list
      end
  end.

(** Modelled from the spec: the missing stream translator when upstream is
    exhausted.  "Every content block opened in the outbound stream is
    eventually closed (a synthetic close/terminal event is emitted)": a
    message that is still open is ended as by a terminal chunk of a normal
    completion; if no message was opened nothing is emitted. *)
Definition at_end (s : State) : State * list Event :=
  match phase s with
  | MessageOpen => on_finish "stop" s
  | Idle =>
      ({| phase := Done; next_index := next_index s; open_block := None; buffer := "" |},
       (close_open false s).2)
  | Done | Cancelled => (s, [])
  end.

(** The translator run over what it meets upstream, from a given state, to
    the end of upstream. *)
Fixpoint run (s : State) (inputs : list Upstream) : State * list Event :=
  match inputs with
  | [] => at_end s
  | u :: rest =>
      let (s1, es) := step s u in
      let (s2, more) := run s1 rest in
      (s2, es ++ more)%list
  end.

Definition translate (inputs : list Upstream) : list Event := (run initial inputs).2.
Definition final_state (inputs : list Upstream) : State := (run initial inputs).1.

(** The indices of the blocks opened, and of the blocks closed, in order. *)
Definition opened (es : list Event) : list nat :=
  omap (fun e => match e with ContentBlockStart i _ => Some i | _ => None end) es.

Definition closed (es : list Event) : list nat :=
  omap (fun e => match e with ContentBlockStop i => Some i | _ => None end) es.

Definition pending (s : State) : nat :=
  match open_block s with
  | Some _ => 1%nat
  | None => 0%nat
  end.

(** The invariant of a run: the blocks opened so far are [0 .. next_index),
    the blocks closed so far are all of them but the one still open, and the
    open block, if any, is the last one opened. *)
Record accounted (s : State) (es : list Event) : Prop := {
  acc_opened : opened es = seq 0 (next_index s);
  acc_closed : closed es = seq 0 (next_index s - pending s);
  acc_last : forall i k, open_block s = Some (i, k) -> next_index s = S i;
  acc_ended : is_terminal s = true -> open_block s = None
}.

End StreamTranslator.

(** ** Configurations and inputs the statements below are evaluated at *)

Module Fixtures.

(** A deployment that sets [ANTHROPIC_API_KEY]. *)
Definition keyed_config (key : string) : Config :=
  {| openai_api_key := Some "sk-backend";
     anthropic_api_key := Some key;
     openai_base_url := "https://api.openai.com/v1";
     small_model_base_url := "https://api.openai.com/v1";
     small_model_api_key := Some "sk-backend";
     max_tokens_limit := 4096;
     min_tokens_limit := 100;
     big_model := "gpt-4o";
     middle_model := "gpt-4o";
     small_model := "gpt-4o-mini" |}.

Definition hi : ClaudeMessage := {| role := "user"; content := Some (Str "Hi") |}.

Definition haiku_request (streaming : bool) : ClaudeMessagesRequest :=
  {| model := "claude-3-5-haiku-20241022"; max_tokens := 1024; messages := [hi];
     system := None; stream := streaming |}.

(** The backend request the design gives for [haiku_request false] under
    the default configuration. *)
Definition haiku_fields : list (string * json) :=
  [("model", JStr "gpt-4o-mini"); ("messages", JList []);
   ("max_tokens", JInt 1024); ("stream", JBool false)].

Definition haiku_fields_streaming : list (string * json) :=
  [("model", JStr "gpt-4o-mini"); ("messages", JList []);
   ("max_tokens", JInt 1024); ("stream", JBool true)].

Definition no_translation (msgs : list ClaudeMessage) : outcome json := Ret (JList []).

(** A converter that stands for the request converter in the runs of the
    handler below: the small model, no messages, the streaming flag of the
    request. *)
Definition fixed_conversion (request : ClaudeMessagesRequest)
  : outcome (list (string * json)) :=
  Ret [("model", JStr "gpt-4o-mini"); ("messages", JList []);
       ("max_tokens", JInt 1024); ("stream", JBool (stream request))].

(** Collaborators that all succeed, for a caller that is still connected;
    the classifier hands the text back as it is. *)
Definition calm (cfg : Config) : Endpoints.World :=
  {| Endpoints.convert_claude_to_openai := fixed_conversion;
     Endpoints.is_disconnected := false;
     Endpoints.create_chat_completion := fun _ _ => Ret [("id", JStr "chatcmpl-1")];
     Endpoints.create_chat_completion_stream := fun _ _ => Ret [];
     Endpoints.convert_openai_streaming_to_claude_with_cancellation := fun _ _ _ => [];
     Endpoints.convert_openai_to_claude_response := fun _ _ => Ret (JObj []);
     Endpoints.classify_openai_error := fun _ text => text;
     Endpoints.format_exc := fun e => "Traceback (most recent call last): " +:+ exc_str e;
     Endpoints.now_isoformat := "2025-01-01T00:00:00" |}.

Definition connection_refused : exc :=
  {| exc_http := None; exc_str := "ConnectError: [Errno 111] Connection refused";
     exc_is_exception := true |}.

(** The backend cannot be reached. *)
Definition backend_down (cfg : Config) : Endpoints.World :=
  {| Endpoints.convert_claude_to_openai := Endpoints.convert_claude_to_openai (calm cfg);
     Endpoints.is_disconnected := false;
     Endpoints.create_chat_completion := fun _ _ => Raise connection_refused;
     Endpoints.create_chat_completion_stream := fun _ _ => Raise connection_refused;
     Endpoints.convert_openai_streaming_to_claude_with_cancellation := fun _ _ _ => [];
     Endpoints.convert_openai_to_claude_response := fun _ _ => Ret (JObj []);
     Endpoints.classify_openai_error := fun _ text => text;
     Endpoints.format_exc := Endpoints.format_exc (calm cfg);
     Endpoints.now_isoformat := "2025-01-01T00:00:00" |}.

Definition rate_limited : exc := HTTPException 429 "Rate limit exceeded".

(** Opening the backend stream raises a 429. *)
Definition backend_rate_limited (cfg : Config) : Endpoints.World :=
  {| Endpoints.convert_claude_to_openai := Endpoints.convert_claude_to_openai (calm cfg);
     Endpoints.is_disconnected := false;
     Endpoints.create_chat_completion := fun _ _ => Raise rate_limited;
     Endpoints.create_chat_completion_stream := fun _ _ => Raise rate_limited;
     Endpoints.convert_openai_streaming_to_claude_with_cancellation := fun _ _ _ => [];
     Endpoints.convert_openai_to_claude_response := fun _ _ => Ret (JObj []);
     Endpoints.classify_openai_error := fun _ text => text;
     Endpoints.format_exc := Endpoints.format_exc (calm cfg);
     Endpoints.now_isoformat := "2025-01-01T00:00:00" |}.

(** The caller has gone before the backend is asked. *)
Definition caller_gone (cfg : Config) : Endpoints.World :=
  {| Endpoints.convert_claude_to_openai := Endpoints.convert_claude_to_openai (calm cfg);
     Endpoints.is_disconnected := true;
     Endpoints.create_chat_completion := Endpoints.create_chat_completion (calm cfg);
     Endpoints.create_chat_completion_stream :=
       Endpoints.create_chat_completion_stream (calm cfg);
     Endpoints.convert_openai_streaming_to_claude_with_cancellation := fun _ _ _ => [];
     Endpoints.convert_openai_to_claude_response := fun _ _ => Ret (JObj []);
     Endpoints.classify_openai_error := fun _ text => text;
     Endpoints.format_exc := Endpoints.format_exc (calm cfg);
     Endpoints.now_isoformat := "2025-01-01T00:00:00" |}.

(** Backend chunks: one that opens the message with a first text fragment,
    two more fragments, a tool call in two fragments and the end. *)
Definition text_chunk (first : bool) (t : string) : StreamTranslator.Chunk :=
  {| StreamTranslator.chunk_role := if first then Some "assistant" else None;
     StreamTranslator.text_fragment := Some t;
     StreamTranslator.tool_fragment := None;
     StreamTranslator.finish_reason := None |}.

Definition tool_chunk (id args : string) : StreamTranslator.Chunk :=
  {| StreamTranslator.chunk_role := None;
     StreamTranslator.text_fragment := None;
     StreamTranslator.tool_fragment :=
       Some {| StreamTranslator.call_id := id;
               StreamTranslator.name_fragment := "lookup";
               StreamTranslator.arguments_fragment := args |};
     StreamTranslator.finish_reason := None |}.

Definition finish_chunk (reason : string) : StreamTranslator.Chunk :=
  {| StreamTranslator.chunk_role := None;
     StreamTranslator.text_fragment := None;
     StreamTranslator.tool_fragment := None;
     StreamTranslator.finish_reason := Some reason |}.

Definition three_fragments : list StreamTranslator.Upstream :=
  [StreamTranslator.Received (text_chunk true "Hel");
   StreamTranslator.Received (text_chunk false "lo ");
   StreamTranslator.Received (text_chunk false "you");
   StreamTranslator.Received (finish_chunk "stop")].

Definition cut_short : list StreamTranslator.Upstream :=
  [StreamTranslator.Received (text_chunk true "Let me look");
   StreamTranslator.IdleInterval;
   StreamTranslator.Received (tool_chunk "call_1" "[1,");
   StreamTranslator.Received (tool_chunk "call_1" "2]");
   StreamTranslator.Received (tool_chunk "call_2" "{}");
   StreamTranslator.Disconnected;
   StreamTranslator.Disconnected].

End Fixtures.

(** ** Loading the configuration ([Config.__init__] and the module level of
    [src/core/config.py]) *)

Module Settings.

(** [os.environ]: each variable is unset or set to a string. *)
Definition Environ : Type := string -> option string.

(** [os.environ.get(name, default)]: the default stands in only for an unset
    variable; a variable set to the empty string gives the empty string. *)
Definition getenv (env : Environ) (name fallback : string) : string :=
  match env name with
  | Some v => v
  | None => fallback
  end.

(** The attributes of [Config] that the record [Config] above does not
    carry, next to that record. *)
Record Loaded : Type := {
  core : Config;
  big_model_extra_body : option json;
  small_model_extra_body : option json;
  azure_api_version : option string;
  host : string;
  port : Z;
  log_level : string;
  request_timeout : Z;
  max_retries : Z
}.

Definition ValueError (message : string) : exc :=
  {| exc_http := None; exc_str := message; exc_is_exception := true |}.

Definition bind {A B : Type} (r : outcome A) (k : A -> outcome B) : outcome B :=
  match r with
  | Ret a => k a
  | Raise e => Raise e
  end.

(** What [json.loads] does with a string. *)
Inductive loads_result : Type :=
| Parsed (value : json)
| DecodeError
| LoadsRaised (e : exc).

Section Builtins.

(** The two library functions the loader calls: [int] on a string, which
    returns or raises, and [json.loads], which returns, raises a
    [JSONDecodeError], or raises something else (a [RecursionError] on deeply
    nested input, say). *)
Variable py_int : string -> outcome Z.
Variable json_loads : string -> loads_result.

(** [Config._parse_json_env]: only the [JSONDecodeError] is caught. *)
Definition _parse_json_env (env : Environ) (env_var_name : string)
  : outcome (option json) :=
  match env env_var_name with
  | None => Ret None
  | Some env_value =>
      if nonempty env_value
      then match json_loads env_value with
           | Parsed value => Ret (Some value)
           | DecodeError => Ret None
           | LoadsRaised e => Raise e
           end
      else Ret None
  end.

(** [Config.__init__], in the order of its statements. *)
Definition Config_init (env : Environ) : outcome Loaded :=
  let key := env "OPENAI_API_KEY" in
  if negb (truthy key)
  then Raise (ValueError "OPENAI_API_KEY not found in environment variables")
  else
    let anthropic := env "ANTHROPIC_API_KEY" in
    let base_url := getenv env "OPENAI_BASE_URL" "https://api.openai.com/v1" in
    let small_url := getenv env "SMALL_MODEL_BASE_URL" base_url in
    let small_key := match env "SMALL_MODEL_API_KEY" with
                     | Some k => Some k
                     | None => key
                     end in
    bind (_parse_json_env env "BIG_MODEL_EXTRA_BODY") (fun big_extra =>
    bind (_parse_json_env env "SMALL_MODEL_EXTRA_BODY") (fun small_extra =>
    let azure := env "AZURE_API_VERSION" in
    let the_host := getenv env "HOST" "0.0.0.0" in
    bind (py_int (getenv env "PORT" "8082")) (fun the_port =>
    let level := getenv env "LOG_LEVEL" "INFO" in
    bind (py_int (getenv env "MAX_TOKENS_LIMIT" "4096")) (fun max_limit =>
    bind (py_int (getenv env "MIN_TOKENS_LIMIT" "100")) (fun min_limit =>
    bind (py_int (getenv env "REQUEST_TIMEOUT" "90")) (fun timeout =>
    bind (py_int (getenv env "MAX_RETRIES" "2")) (fun retries =>
    let big := getenv env "BIG_MODEL" "gpt-4o" in
    let middle := getenv env "MIDDLE_MODEL" big in
    let small := getenv env "SMALL_MODEL" "gpt-4o-mini" in
    Ret {| core := {| openai_api_key := key;
                      anthropic_api_key := anthropic;
                      openai_base_url := base_url;
                      small_model_base_url := small_url;
                      small_model_api_key := small_key;
                      max_tokens_limit := max_limit;
                      min_tokens_limit := min_limit;
                      big_model := big;
                      middle_model := middle;
                      small_model := small |};
           big_model_extra_body := big_extra;
           small_model_extra_body := small_extra;
           azure_api_version := azure;
           host := the_host;
           port := the_port;
           log_level := level;
           request_timeout := timeout;
           max_retries := retries |}))))))).

(** The module level: [config = Config()], and [sys.exit(1)] in the clause
    [except Exception]; what is not an [Exception] leaves the module. *)
Inductive Startup : Type :=
| Configured (config : Loaded)
| Exited (code : Z)
| Escaped (e : exc).

Definition load (env : Environ) : Startup :=
  match Config_init env with
  | Ret config => Configured config
  | Raise e => if is_exception e then Exited 1 else Escaped e
  end.

End Builtins.

(** [Config.validate_api_key]: the backend key is there and starts with
    ["sk-"]. *)
Definition validate_api_key (cfg : Config) : bool :=
  match openai_api_key cfg with
  | Some k => if nonempty k then startswith "sk-" k else false
  | None => false
  end.

(** A configuration with another backend key and another client key. *)
Definition with_keys (cfg : Config) (backend client : option string) : Config :=
  {| openai_api_key := backend;
     anthropic_api_key := client;
     openai_base_url := openai_base_url cfg;
     small_model_base_url := small_model_base_url cfg;
     small_model_api_key := small_model_api_key cfg;
     max_tokens_limit := max_tokens_limit cfg;
     min_tokens_limit := min_tokens_limit cfg;
     big_model := big_model cfg;
     middle_model := middle_model cfg;
     small_model := small_model cfg |}.

End Settings.

(** ** The informational endpoints ([health_check] and [root]) *)

Module Diagnostics.

(** [health_check]; [now] is [datetime.now().isoformat()]. *)
Definition health_check (cfg : Config) (now : string) : json :=
  JObj [("status", JStr "healthy");
        ("timestamp", JStr now);
        ("openai_api_configured", JBool (truthy (openai_api_key cfg)));
        ("api_key_valid", JBool (Settings.validate_api_key cfg));
        ("client_api_key_validation", JBool (truthy (anthropic_api_key cfg)))].

(** [root]. *)
Definition root (cfg : Config) : json :=
  JObj [("message", JStr "Claude-to-OpenAI API Proxy v1.0.0");
        ("status", JStr "running");
        ("config",
         JObj [("openai_base_url", JStr (openai_base_url cfg));
               ("max_tokens_limit", JInt (max_tokens_limit cfg));
               ("api_key_configured", JBool (truthy (openai_api_key cfg)));
               ("client_api_key_validation", JBool (truthy (anthropic_api_key cfg)));
               ("big_model", JStr (big_model cfg));
               ("small_model", JStr (small_model cfg))]);
        ("endpoints",
         JObj [("messages", JStr "/v1/messages");
               ("count_tokens", JStr "/v1/messages/count_tokens");
               ("health", JStr "/health");
               ("test_connection", JStr "/test-connection")])].

(** The flag a body carries under a key. *)
Definition flag (k : string) (body : json) : option bool :=
  match dict_get k body with
  | Some (JBool b) => Some b
  | _ => None
  end.

End Diagnostics.

(** ** The entry point ([main] of [src/main.py]) *)

Module Main.

(** The characters [str.split()] takes for white space, among the code
    points below 256. *)
Definition is_space (c : ascii) : bool :=
  let n := nat_of_ascii c in
  ((Nat.leb 9 n && Nat.leb n 13) || (Nat.leb 28 n && Nat.leb n 32)
   || Nat.eqb n 133 || Nat.eqb n 160)%bool.

(** [s.split()]: the maximal runs of characters that are not white space. *)
Fixpoint split (s : string) : list string :=
  match s with
  | EmptyString => []
  | String c rest =>
      if is_space c then split rest
      else match rest with
           | EmptyString => [String c EmptyString]
           | String c' _ =>
               if is_space c' then String c EmptyString :: split rest
               else match split rest with
                    | w :: ws => String c w :: ws
                    | [] => [String c EmptyString]
                    end
           end
  end.

Definition valid_levels : list string :=
  ["debug"; "info"; "warning"; "error"; "critical"].

Definition IndexError : exc :=
  {| exc_http := None; exc_str := "list index out of range"; exc_is_exception := true |}.

(** How a call of [main] ends: [sys.exit], the call of [uvicorn.run] with its
    arguments, or an exception. *)
Inductive Run : Type :=
| Exit (code : Z)
| Serve (app host : string) (port : Z) (log_level : string) (reload : bool)
| Crash (e : exc).

(** [len(sys.argv) > 1 and sys.argv[1] == "--help"]. *)
Definition asks_help (argv : list string) : bool :=
  match argv with
  | _ :: second :: _ => String.eqb second "--help"
  | _ => false
  end.

(** The log level handed to the server: the first word of the setting in
    lower case when that is a valid level, ["info"] otherwise. *)
Definition effective_level (word : string) : string :=
  let log_level := lower word in
  if existsb (String.eqb log_level) valid_levels then log_level else "info".

(** [main]. *)
Definition main (argv : list string) (config : Settings.Loaded) : Run :=
  if asks_help argv then Exit 0
  else match split (Settings.log_level config) with
       | [] => Crash IndexError
       | word :: _ =>
           Serve "src.main:app" (Settings.host config) (Settings.port config)
                 (effective_level word) false
       end.

End Main.

(** ** Further inputs *)

Module Samples.

(** [int] on plain decimal digits, enough for the defaults of the loader. *)
Fixpoint digits_value (acc : Z) (s : string) : option Z :=
  match s with
  | EmptyString => Some acc
  | String c rest =>
      let n := nat_of_ascii c in
      if (Nat.leb 48 n && Nat.leb n 57)%bool
      then digits_value (10 * acc + Z.of_nat (n - 48)) rest
      else None
  end.

Definition plain_int (s : string) : outcome Z :=
  match s with
  | EmptyString => Raise (Settings.ValueError "invalid literal for int()")
  | _ => match digits_value 0 s with
         | Some n => Ret n
         | None => Raise (Settings.ValueError "invalid literal for int()")
         end
  end.

Definition no_json (s : string) : Settings.loads_result := Settings.DecodeError.

(** An environment that sets the backend key only. *)
Definition only_key (name : string) : option string :=
  if String.eqb name "OPENAI_API_KEY" then Some "sk-live" else None.

(** An environment that sets nothing. *)
Definition nothing_set (name : string) : option string := None.

(** What the loader gives for [only_key]. *)
Definition loaded_defaults : Settings.Loaded :=
  {| Settings.core := default_config "sk-live";
     Settings.big_model_extra_body := None;
     Settings.small_model_extra_body := None;
     Settings.azure_api_version := None;
     Settings.host := "0.0.0.0";
     Settings.port := 8082;
     Settings.log_level := "INFO";
     Settings.request_timeout := 90;
     Settings.max_retries := 2 |}.

Definition with_log_level (config : Settings.Loaded) (level : string) : Settings.Loaded :=
  {| Settings.core := Settings.core config;
     Settings.big_model_extra_body := Settings.big_model_extra_body config;
     Settings.small_model_extra_body := Settings.small_model_extra_body config;
     Settings.azure_api_version := Settings.azure_api_version config;
     Settings.host := Settings.host config;
     Settings.port := Settings.port config;
     Settings.log_level := level;
     Settings.request_timeout := Settings.request_timeout config;
     Settings.max_retries := Settings.max_retries config |}.

(** A backend that answers every call with a 429. *)
Definition answers_429 (cfg : Config) : Endpoints.World :=
  Fixtures.backend_rate_limited cfg.

(** What a cancelled request task raises: [asyncio.CancelledError], which
    is not an [Exception]. *)
Definition cancelled : exc :=
  {| exc_http := None; exc_str := ""; exc_is_exception := false |}.

(** A backend whose calls are cancelled. *)
Definition backend_cancelled (cfg : Config) : Endpoints.World :=
  {| Endpoints.convert_claude_to_openai := Fixtures.fixed_conversion;
     Endpoints.is_disconnected := false;
     Endpoints.create_chat_completion := fun _ _ => Raise cancelled;
     Endpoints.create_chat_completion_stream := fun _ _ => Raise cancelled;
     Endpoints.convert_openai_streaming_to_claude_with_cancellation := fun _ _ _ => [];
     Endpoints.convert_openai_to_claude_response := fun _ _ => Ret (JObj []);
     Endpoints.classify_openai_error := fun _ text => text;
     Endpoints.format_exc := fun e => exc_str e;
     Endpoints.now_isoformat := "2025-01-01T00:00:00" |}.



Definition recursion_error : exc :=
  {| exc_http := None; exc_str := "maximum recursion depth exceeded";
     exc_is_exception := true |}.

(** [json.loads] giving up on nesting. *)
Definition too_deep (s : string) : Settings.loads_result :=
  Settings.LoadsRaised recursion_error.

(** An environment with the backend key and an extra body. *)
Definition with_extra_body (name : string) : option string :=
  if String.eqb name "OPENAI_API_KEY" then Some "sk-live"
  else if String.eqb name "BIG_MODEL_EXTRA_BODY" then Some "[[[["
  else None.

Definition two_messages : list ClaudeMessage :=
  [ {| role := "user"; content := Some (Str "What is the weather") |};
    {| role := "assistant";
       content := Some (Blocks [TextBlock "Let me check.";
                                ToolUseBlock "call_1" "weather" (JObj [])]) |} ].

End Samples.

(** * Properties *)

(** ** The client-key check *)

Section AuthFacts.
Import Auth.

Lemma validate_api_key_disabled cfg x_api_key authorization :
  truthy (anthropic_api_key cfg) = false ->
  validate_api_key cfg x_api_key authorization = Ret tt.
Proof. intros H. unfold validate_api_key. now rewrite H. Qed.

Lemma nonempty_false s : nonempty s = false -> s = "".
Proof.
  unfold nonempty. intros H. apply negb_false_iff in H. now apply String.eqb_eq in H.
Qed.

(** The check in terms of the key it extracts: a 401 exactly when a
    non-empty key is configured and the extracted key is missing or is not
    that key. *)
Lemma validate_api_key_401 cfg x_api_key authorization :
  raises_401 (validate_api_key cfg x_api_key authorization) = true <->
  exists expected,
    anthropic_api_key cfg = Some expected /\ expected <> "" /\
    client_api_key x_api_key authorization <> Some expected.
Proof.
  unfold validate_api_key, validate_client_api_key.
  destruct (anthropic_api_key cfg) as [expected|] eqn:Hk; cbn [truthy].
  2:{ cbn. split; [discriminate | intros (e & He & _); discriminate]. }
  destruct (nonempty expected) eqn:Hne; cbn [negb].
  2:{ cbn. apply nonempty_false in Hne. split; [discriminate|].
      intros (e & He & Hn & _). congruence. }
  assert (Hexp : expected <> "").
  { intros ->. discriminate. }
  destruct (client_api_key x_api_key authorization) as [k|] eqn:Hc.
  - destruct (nonempty k) eqn:Hnk; cbn [negb orb].
    + destruct (String.eqb k expected) eqn:Heq; cbn.
      * apply String.eqb_eq in Heq. subst k. split; [discriminate|].
        intros (e & He & _ & Hd). congruence.
      * apply String.eqb_neq in Heq. split; [|reflexivity].
        intros _. exists expected. repeat split; congruence.
    + cbn. apply nonempty_false in Hnk. subst k. split; [|reflexivity].
      intros _. exists expected. repeat split; congruence.
  - cbn. split; [|reflexivity]. intros _. exists expected. repeat split; congruence.
Qed.

(** With a non-empty [x-api-key] header the check decides as documented. *)
Lemma validate_api_key_x_api_key cfg k authorization :
  nonempty k = true ->
  raises_401 (validate_api_key cfg (Some k) authorization)
  = documented_rejects cfg (Some k) authorization.
Proof.
  intros Hk. unfold validate_api_key, documented_rejects, documented_client_key,
    client_api_key, validate_client_api_key. cbn [truthy]. rewrite Hk.
  destruct (anthropic_api_key cfg) as [expected|]; cbn [truthy]; [|reflexivity].
  destruct (nonempty expected); cbn [negb andb orb]; [|reflexivity].
  rewrite Hk. now destruct (String.eqb k expected).
Qed.

End AuthFacts.

(** C10.  The client-key check does not decide as described when the
    [Authorization] value repeats ["Bearer "]: with the key [sk-key]
    configured and the header [Bearer Bearer sk-key], what follows the prefix
    is [Bearer sk-key], which is not the configured key, so the described
    check raises the 401; the code removes every ["Bearer "], extracts
    [sk-key] and accepts the request. *)
Theorem validate_api_key_repeated_bearer :
  Auth.validate_api_key (Fixtures.keyed_config "sk-key") None (Some "Bearer Bearer sk-key")
  = Ret tt
  /\ Auth.client_api_key None (Some "Bearer Bearer sk-key") = Some "sk-key"
  /\ Auth.documented_client_key None (Some "Bearer Bearer sk-key") = Some "Bearer sk-key"
  /\ Auth.documented_rejects (Fixtures.keyed_config "sk-key") None
       (Some "Bearer Bearer sk-key") = true.
Proof. repeat split; vm_compute; reflexivity. Qed.

(** ** The header log *)

Section HeaderFacts.
Import Headers.


Lemma masked_fold_lookup items (d : gmap string string) k :
  fold_left (fun d kv => <[kv.1 := logged_value kv.1 kv.2]> d) items d !! k
  = match last_value k items with
    | Some v => Some (logged_value k v)
    | None => d !! k
    end.
Proof.
  revert d. induction items as [|[k' v] rest IH]; intros d; cbn [fold_left last_value].
  - reflexivity.
  - rewrite IH. destruct (last_value k rest) as [w|]; [reflexivity|].
    cbn [fst snd]. destruct (String.eqb k k') eqn:E.
    + apply String.eqb_eq in E. subst k'. now rewrite lookup_insert_eq.
    + apply String.eqb_neq in E. rewrite lookup_insert_ne; [reflexivity | congruence].
Qed.

Lemma last_value_some_key k items :
  is_Some (last_value k items) <-> In k (map fst items).
Proof.
  induction items as [|[k' v] rest IH]; cbn [last_value map In fst].
  - split; [intros [x Hx]; discriminate | tauto].
  - destruct (last_value k rest) as [w|] eqn:Hl.
    + split; [intros _; right; apply IH; eauto | eauto].
    + destruct (String.eqb k k') eqn:E.
      * apply String.eqb_eq in E. subst k'. split; [auto | eauto].
      * apply String.eqb_neq in E. split.
        -- intros [x Hx]. discriminate.
        -- intros [Heq|Hin]; [congruence|]. apply IH in Hin as [x Hx]. discriminate.
Qed.




End HeaderFacts.




Example masked_headers_sample :
  Headers.masked_headers
    [("x-api-key", "sk-ant-secret"); ("user-agent", "claude-cli"); ("meta-data", "m")]
  = <["x-api-key" := "sk-ant-secret"]>
      (<["user-agent" := "*****"]> (<["meta-data" := "m"]> ∅)).
Proof. apply map_eq. intros k. vm_compute. reflexivity. Qed.

(** ** The token estimate *)

Section TokenFacts.
Import Tokens.

Lemma len_nonneg s : 0 <= len s.
Proof. unfold len. lia. Qed.

Lemma add_blocks_sum bs t :
  fold_left add_message_block bs t = t + text_chars bs.
Proof.
  revert t. induction bs as [|b bs IH]; intros t; cbn [fold_left].
  - unfold text_chars. cbn. lia.
  - rewrite IH. unfold text_chars, add_message_block. cbn [map fold_right].
    destruct (block_text b); cbn [from_option]; lia.
Qed.

Lemma add_system_blocks_sum bs t :
  fold_left add_system_block bs t = t + text_chars bs.
Proof. apply add_blocks_sum. Qed.

Lemma count_system_sum sys t :
  count_system sys t = t + content_chars sys.
Proof.
  destruct sys as [[s|bs]|]; cbn [count_system content_chars].
  - destruct (nonempty s) eqn:E; [reflexivity|].
    apply nonempty_false in E. subst s. unfold len. cbn [String.length Z.of_nat]. lia.
  - destruct bs as [|b bs]; [unfold text_chars; cbn; lia|].
    apply add_system_blocks_sum.
  - lia.
Qed.

Lemma add_messages_sum msgs t :
  fold_left add_message msgs t
  = t + fold_right Z.add 0 (map (fun m => content_chars (content m)) msgs).
Proof.
  revert t. induction msgs as [|m msgs IH]; intros t; cbn [fold_left map fold_right].
  - lia.
  - rewrite IH. unfold add_message.
    destruct (content m) as [[s|bs]|]; cbn [content_chars]; try lia.
    rewrite add_blocks_sum. lia.
Qed.

Lemma total_chars_described request :
  total_chars request = described_chars request.
Proof.
  unfold total_chars, described_chars.
  rewrite add_messages_sum, count_system_sum. lia.
Qed.

Lemma text_chars_nonneg bs : 0 <= text_chars bs.
Proof.
  unfold text_chars. induction bs as [|b bs IH]; cbn [map fold_right]; [lia|].
  destruct (block_text b); cbn [from_option]; [pose proof (len_nonneg s)|]; lia.
Qed.

Lemma text_chars_filter bs :
  text_chars (List.filter is_text_block bs) = text_chars bs.
Proof.
  unfold text_chars. induction bs as [|b bs IH]; [reflexivity|].
  destruct b; cbn [List.filter is_text_block map fold_right block_text from_option];
    rewrite IH; lia.
Qed.

Lemma content_chars_text_only c :
  content_chars (text_only c) = content_chars c.
Proof.
  destruct c as [[s|bs]|]; cbn [text_only content_chars]; try reflexivity.
  apply text_chars_filter.
Qed.

Lemma described_chars_without_non_text request :
  described_chars (without_non_text request) = described_chars request.
Proof.
  unfold described_chars, without_non_text. cbn [system messages].
  rewrite content_chars_text_only. f_equal.
  induction (messages request) as [|m msgs IH]; [reflexivity|].
  cbn [map fold_right content]. now rewrite IH, content_chars_text_only.
Qed.

End TokenFacts.

(** C5.  [count_tokens] returns [{"input_tokens": n}] where [n] is the larger
    of 1 and the quotient by 4 of the characters of the system prompt (its
    string, or the text of its blocks) and of every message (its string
    content, or the text of its text-bearing blocks); so [n] is at least 1,
    and taking every non-text block out of the request leaves the result as
    it is. *)
Theorem count_tokens_estimate (request : Tokens.ClaudeTokenCountRequest) :
  Tokens.count_tokens request
  = JObj [("input_tokens", JInt (Z.max 1 (Tokens.described_chars request / 4)))]
  /\ 1 <= Tokens.estimated_tokens request
  /\ Tokens.count_tokens (Tokens.without_non_text request) = Tokens.count_tokens request.
Proof.
  unfold Tokens.count_tokens, Tokens.estimated_tokens.
  rewrite !total_chars_described, described_chars_without_non_text.
  repeat split. lia.
Qed.

Example count_tokens_sample :
  Tokens.count_tokens
    {| Tokens.model := "claude-3-5-sonnet";
       Tokens.messages :=
         [ {| role := "user"; content := Some (Str "Hello, world") |};
           {| role := "assistant";
              content := Some (Blocks [TextBlock "abcdef";
                                       ToolUseBlock "call_1" "lookup" (JObj []);
                                       ImageBlock JNull]) |};
           {| role := "user"; content := None |} ];
       Tokens.system := Some (Blocks [TextBlock "Be brief."]) |}
  = JObj [("input_tokens", JInt 6)]
  /\ Tokens.count_tokens
       {| Tokens.model := "m"; Tokens.messages := []; Tokens.system := None |}
     = JObj [("input_tokens", JInt 1)].
Proof. split; vm_compute; reflexivity. Qed.

(** ** The backend calls of [create_message] *)

(** The calls [create_message] makes, by how far it gets. *)
Lemma create_message_calls
    (cfg : Config) (W : Endpoints.World) (request : ClaudeMessagesRequest)
    (headers : list (string * string)) :
  match Endpoints.convert_claude_to_openai W request with
  | Raise _ =>
      Endpoints.backend_calls (Endpoints.create_message cfg W request headers).1 = []
  | Ret openai_request =>
      Endpoints.backend_calls (Endpoints.create_message cfg W request headers).1
      = if Endpoints.is_disconnected W then []
        else [Endpoints.BackendCall (Endpoints.current_client cfg openai_request)
                (stream request)]
  end.
Proof.
  assert (Houter : forall e, Endpoints.backend_calls (Endpoints.outer_except W e).1 = []).
  { intros e. unfold Endpoints.outer_except.
    destruct (exc_http e); [reflexivity|]. now destruct (exc_is_exception e). }
  assert (Hafter : forall pre r,
            (Endpoints.after pre r).1 = (pre ++ r.1)%list) by reflexivity.
  assert (Hfilter : forall l l',
            Endpoints.backend_calls (l ++ l')
            = (Endpoints.backend_calls l ++ Endpoints.backend_calls l')%list).
  { intros l l'. unfold Endpoints.backend_calls. apply List.filter_app. }
  unfold Endpoints.create_message.
  destruct (Endpoints.convert_claude_to_openai W request) as [oreq|e].
  - rewrite Hafter, Hfilter.
    destruct (Endpoints.is_disconnected W); [now rewrite Houter|].
    destruct (stream request); rewrite Hafter, Hfilter.
    + destruct (Endpoints.create_chat_completion_stream W _ oreq) as [s|e];
        [reflexivity|].
      destruct (exc_http e) as [[status detail]|] eqn:He; [reflexivity|].
      now rewrite Houter.
    + destruct (Endpoints.create_chat_completion W _ oreq) as [r|e].
      * destruct (Endpoints.convert_openai_to_claude_response W r request) as [c|e];
          [reflexivity | now rewrite Houter].
      * now rewrite Houter.
  - rewrite Hafter, Hfilter. now rewrite Houter.
Qed.

(** ** Routing and clamping *)

Section TranslatorFacts.
Import Translator.





Lemma convert_fields cfg translate_messages request fields :
  convert_claude_to_openai cfg translate_messages request = Ret fields ->
  assoc_get "model" fields = Some (JStr (map_claude_model_to_openai cfg (model request)))
  /\ assoc_get "max_tokens" fields
     = Some (JInt (clamp_max_tokens cfg (max_tokens request))).
Proof.
  unfold convert_claude_to_openai.
  destruct (negb (nonempty (model request))); [discriminate|].
  destruct (messages request); [discriminate|].
  destruct (translate_messages _); [|discriminate].
  intros [= <-]. split; reflexivity.
Qed.

Lemma clamp_in_bounds cfg v :
  min_tokens_limit cfg <= max_tokens_limit cfg ->
  min_tokens_limit cfg <= clamp_max_tokens cfg v <= max_tokens_limit cfg.
Proof.
  intros Hb. unfold clamp_max_tokens.
  destruct (Z.ltb_spec (max_tokens_limit cfg) v); [lia|].
  destruct (Z.ltb_spec v (min_tokens_limit cfg)); lia.
Qed.

End TranslatorFacts.




(** C7.  With the floor not above the ceiling, the token limit of the
    translated request lies between the configured floor and ceiling: the
    ceiling for a request above it, the floor for a request below it, the
    requested value otherwise; whether the translation succeeds does not
    depend on the requested value. *)
Theorem max_tokens_clamped
    (cfg : Config) (translate_messages : list ClaudeMessage -> outcome json)
    (request : ClaudeMessagesRequest)
    (Hbounds : min_tokens_limit cfg <= max_tokens_limit cfg) :
  (forall fields,
      Translator.convert_claude_to_openai cfg translate_messages request = Ret fields ->
      exists limit,
        assoc_get "max_tokens" fields = Some (JInt limit)
        /\ min_tokens_limit cfg <= limit <= max_tokens_limit cfg
        /\ (max_tokens_limit cfg < max_tokens request -> limit = max_tokens_limit cfg)
        /\ (max_tokens request < min_tokens_limit cfg -> limit = min_tokens_limit cfg)
        /\ (min_tokens_limit cfg <= max_tokens request <= max_tokens_limit cfg ->
            limit = max_tokens request))
  /\ (forall v,
        Translator.is_ret
          (Translator.convert_claude_to_openai cfg translate_messages
             (Translator.with_max_tokens request v))
        = Translator.is_ret
            (Translator.convert_claude_to_openai cfg translate_messages request)).
Proof.
  split.
  - intros fields Hconv. destruct (convert_fields _ _ _ _ Hconv) as [_ Hmax].
    exists (Translator.clamp_max_tokens cfg (max_tokens request)).
    split; [exact Hmax|]. split; [now apply clamp_in_bounds|].
    unfold Translator.clamp_max_tokens.
    destruct (Z.ltb_spec (max_tokens_limit cfg) (max_tokens request));
      destruct (Z.ltb_spec (max_tokens request) (min_tokens_limit cfg)); lia.
  - intros v. unfold Translator.convert_claude_to_openai, Translator.with_max_tokens.
    cbn [model messages max_tokens stream].
    destruct (negb (nonempty (model request))); [reflexivity|].
    destruct (messages request); [reflexivity|].
    destruct (translate_messages _); reflexivity.
Qed.

Lemma max_tokens_clamped_witness :
  min_tokens_limit (default_config "sk-live") <= max_tokens_limit (default_config "sk-live")
  /\ forall fields,
       Translator.convert_claude_to_openai (default_config "sk-live") Fixtures.no_translation
         (Translator.with_max_tokens (Fixtures.haiku_request false) 200000) = Ret fields ->
       exists limit,
         assoc_get "max_tokens" fields = Some (JInt limit) /\ limit = 4096.
Proof.
  assert (Hb : min_tokens_limit (default_config "sk-live")
               <= max_tokens_limit (default_config "sk-live")) by (cbn; lia).
  split; [exact Hb|].
  intros fields Hconv.
  destruct (proj1 (max_tokens_clamped (default_config "sk-live") Fixtures.no_translation
                     (Translator.with_max_tokens (Fixtures.haiku_request false) 200000) Hb)
              fields Hconv) as (limit & Hget & _ & Habove & _).
  exists limit. split; [exact Hget|]. apply Habove. cbn. lia.
Defined.

(** ** The error paths of the endpoints *)

Section EndpointFacts.
Import Endpoints.

(** An exception that leaves a handler never reaches the caller as an
    error envelope: the framework puts the detail under ["detail"]. *)
Lemma respond_raise_no_envelope e :
  match json_body (respond (Raise e)) with
  | Some body => is_error_envelope body = false
  | None => True
  end.
Proof.
  unfold respond. destruct (exc_http e) as [[status detail]|].
  - unfold http_exception_handler. destruct (body_allowed status); [reflexivity | exact I].
  - destruct (exc_is_exception e); exact I.
Qed.

(** The effects and the outcome of [create_message] once the request is
    translated and the caller is still there. *)
Lemma create_message_connected cfg W request headers openai_request :
  convert_claude_to_openai W request = Ret openai_request ->
  is_disconnected W = false ->
  create_message cfg W request headers
  = after [LogHeaders (Headers.masked_headers headers)]
      (if stream request then
         after [BackendCall (current_client cfg openai_request) true]
           match create_chat_completion_stream W (current_client cfg openai_request)
                   openai_request with
           | Ret openai_stream =>
               ([], Ret (StreamingResponse
                           (convert_openai_streaming_to_claude_with_cancellation
                              W openai_stream request (current_client cfg openai_request))
                           "text/event-stream" stream_headers))
           | Raise e =>
               match exc_http e with
               | Some (status, detail) =>
                   streaming_except W (current_client cfg openai_request) e status detail
               | None => outer_except W e
               end
           end
       else
         after [BackendCall (current_client cfg openai_request) false]
           match create_chat_completion W (current_client cfg openai_request)
                   openai_request with
           | Raise e => outer_except W e
           | Ret openai_response =>
               match convert_openai_to_claude_response W openai_response request with
               | Raise e => outer_except W e
               | Ret claude_response => ([], Ret (JSONResponse 200 claude_response))
               end
           end).
Proof. intros Hc Hd. unfold create_message. now rewrite Hc, Hd. Qed.

(** What [create_message] does once the request is translated and the
    caller is still there, on the non-streaming branch. *)
Lemma create_message_non_streaming cfg W request headers openai_request :
  convert_claude_to_openai W request = Ret openai_request ->
  is_disconnected W = false ->
  stream request = false ->
  (create_message cfg W request headers).2
  = match create_chat_completion W (current_client cfg openai_request) openai_request with
    | Raise e => (outer_except W e).2
    | Ret openai_response =>
        match convert_openai_to_claude_response W openai_response request with
        | Raise e => (outer_except W e).2
        | Ret claude_response => Ret (JSONResponse 200 claude_response)
        end
    end.
Proof.
  intros Hc Hd Hs. unfold create_message. rewrite Hc, Hd, Hs. cbn [after snd].
  destruct (create_chat_completion W _ openai_request) as [r|e]; [|reflexivity].
  destruct (convert_openai_to_claude_response W r request); reflexivity.
Qed.

(** The outer clauses on an [Exception] that is not an [HTTPException]. *)
Lemma outer_except_exception W e :
  exc_http e = None -> exc_is_exception e = true ->
  (outer_except W e).2
  = Raise (HTTPException 500 (classify_openai_error W openai_client (exc_str e))).
Proof. intros Hh He. unfold outer_except. now rewrite Hh, He. Qed.

(** The outer clauses on what is not an [Exception]. *)
Lemma outer_except_escapes W e :
  exc_http e = None -> exc_is_exception e = false -> outer_except W e = ([], Raise e).
Proof. intros Hh He. unfold outer_except. now rewrite Hh, He. Qed.

(** A failure of the backend call on the non-streaming branch that is an
    [Exception] and not an [HTTPException] reaches the caller as a 500 with
    the classified text under ["detail"]. *)
Lemma non_streaming_failure cfg W request headers openai_request e :
  convert_claude_to_openai W request = Ret openai_request ->
  is_disconnected W = false ->
  stream request = false ->
  create_chat_completion W (current_client cfg openai_request) openai_request = Raise e ->
  exc_http e = None ->
  exc_is_exception e = true ->
  respond (create_message cfg W request headers).2
  = JSONResponse 500
      (JObj [("detail", JStr (classify_openai_error W openai_client (exc_str e)))]).
Proof.
  intros Hc Hd Hs Hcall He Hx.
  rewrite (create_message_non_streaming _ _ _ _ _ Hc Hd Hs), Hcall.
  now rewrite (outer_except_exception _ _ He Hx).
Qed.

(** The outcome of [create_message] when [e] is raised at one of the four
    places where a collaborator is called, as a function of what the outer
    clauses make of [e]. *)
Lemma create_message_raised cfg W request headers e :
  exc_http e = None ->
  (convert_claude_to_openai W request = Raise e ->
   (create_message cfg W request headers).2 = (outer_except W e).2)
  /\ (forall openai_request,
        convert_claude_to_openai W request = Ret openai_request ->
        is_disconnected W = false ->
        (stream request = true ->
         create_chat_completion_stream W (current_client cfg openai_request) openai_request
         = Raise e ->
         (create_message cfg W request headers).2 = (outer_except W e).2)
        /\ (stream request = false ->
            create_chat_completion W (current_client cfg openai_request) openai_request
            = Raise e ->
            (create_message cfg W request headers).2 = (outer_except W e).2)
        /\ (forall openai_response,
              stream request = false ->
              create_chat_completion W (current_client cfg openai_request) openai_request
              = Ret openai_response ->
              convert_openai_to_claude_response W openai_response request = Raise e ->
              (create_message cfg W request headers).2 = (outer_except W e).2)).
Proof.
  intros Hplain. split.
  - intros Hc. unfold create_message. now rewrite Hc.
  - intros oreq Hc Hd. rewrite (create_message_connected _ _ _ _ _ Hc Hd).
    repeat split.
    + intros Hs Hcall. now rewrite Hs, Hcall, Hplain.
    + intros Hs Hcall. now rewrite Hs, Hcall.
    + intros r Hs Hcall Hconv. now rewrite Hs, Hcall, Hconv.
Qed.

(** The response of [create_message] does not depend on how tracebacks
    are rendered: they only go to the log. *)
Lemma create_message_ignores_traceback cfg W render request headers :
  (create_message cfg (with_format_exc W render) request headers).2
  = (create_message cfg W request headers).2.
Proof.
  assert (Houter : forall e,
            (outer_except (with_format_exc W render) e).2 = (outer_except W e).2).
  { intros e. unfold outer_except.
    destruct (exc_http e); [reflexivity|]. now destruct (exc_is_exception e). }
  unfold create_message. cbn [after snd].
  change (convert_claude_to_openai (with_format_exc W render))
    with (convert_claude_to_openai W).
  change (is_disconnected (with_format_exc W render)) with (is_disconnected W).
  destruct (convert_claude_to_openai W request) as [oreq|e]; [|apply Houter].
  destruct (is_disconnected W); [apply Houter|].
  destruct (stream request); cbn [after snd].
  - change (create_chat_completion_stream (with_format_exc W render))
      with (create_chat_completion_stream W).
    destruct (create_chat_completion_stream W _ oreq) as [s|e]; [reflexivity|].
    destruct (exc_http e) as [[status detail]|]; [reflexivity | apply Houter].
  - change (create_chat_completion (with_format_exc W render))
      with (create_chat_completion W).
    destruct (create_chat_completion W _ oreq) as [r|e]; [|apply Houter].
    change (convert_openai_to_claude_response (with_format_exc W render))
      with (convert_openai_to_claude_response W).
    destruct (convert_openai_to_claude_response W r request) as [c|e];
      [reflexivity | apply Houter].
Qed.

End EndpointFacts.

(** C1.  On the non-streaming branch a failure does not reach the caller as
    the error envelope: with the backend unreachable, the caller of a
    non-streaming request is sent status 500 with the body
    [{"detail": <text>}], while the same kind of request with [stream] set,
    whose stream cannot be opened because of a 429, is sent the envelope
    [{"type": "error", "error": {"type": ..., "message": ...}}]. *)
Theorem non_streaming_error_is_not_an_envelope :
  Endpoints.post_v1_messages (default_config "sk-live")
    (Fixtures.backend_down (default_config "sk-live")) None None
    (Fixtures.haiku_request false) []
  = Endpoints.JSONResponse 500
      (JObj [("detail", JStr "ConnectError: [Errno 111] Connection refused")])
  /\ Endpoints.is_error_envelope
       (JObj [("detail", JStr "ConnectError: [Errno 111] Connection refused")]) = false
  /\ Endpoints.post_v1_messages (default_config "sk-live")
       (Fixtures.backend_rate_limited (default_config "sk-live")) None None
       (Fixtures.haiku_request true) []
     = Endpoints.JSONResponse 429
         (JObj [("type", JStr "error");
                ("error", JObj [("type", JStr "api_error");
                                ("message", JStr "Rate limit exceeded")])])
  /\ Endpoints.is_error_envelope
       (JObj [("type", JStr "error");
              ("error", JObj [("type", JStr "api_error");
                              ("message", JStr "Rate limit exceeded")])]) = true.
Proof. repeat split; vm_compute; reflexivity. Qed.

(** C2, as stated, fails: when the backend cannot be reached, the message
    that [test_connection] returns is the text of the exception itself. *)
Lemma raw_exception_text_is_returned :
  Endpoints.test_connection (default_config "sk-live")
    (Fixtures.backend_down (default_config "sk-live"))
  = Ret (Endpoints.connection_failed (Fixtures.backend_down (default_config "sk-live"))
           Fixtures.connection_refused)
  /\ exc_str Fixtures.connection_refused = "ConnectError: [Errno 111] Connection refused"
  /\ Endpoints.error_text
       (Endpoints.connection_failed (Fixtures.backend_down (default_config "sk-live"))
          Fixtures.connection_refused)
     = Some "ConnectError: [Errno 111] Connection refused".
Proof. repeat split; vm_compute; reflexivity. Qed.

(** C2, amended.  No traceback crosses the boundary: what [create_message]
    and [test_connection] answer is the same however tracebacks are
    rendered.  On [/v1/messages], an [Exception] that is not an
    [HTTPException], raised by the translation of the request, by the
    opening of the backend stream, by the backend call or by the translation
    of its answer, is answered with status 500 and, as detail, the text the
    main client's classifier gives for [str(e)]; an [HTTPException] raised
    when the backend stream is opened is answered with its status and the
    envelope whose message is the text the chosen client's classifier gives
    for its detail; an [HTTPException] of the non-streaming backend call is
    answered with its status and its own detail.  On [/test-connection], an
    [Exception] of the backend call is answered with status 503 and, as
    message, [str(e)] as it is.  The clause [except Exception] of
    [count_tokens], which the body of that endpoint does not reach for a
    decoded request, turns an [Exception] into a 500 with [str(e)] as
    detail. *)
Theorem error_messages_by_endpoint
    (cfg : Config) (W : Endpoints.World) (render : exc -> string)
    (request : ClaudeMessagesRequest) (headers : list (string * string)) (e : exc) :
  (Endpoints.create_message cfg (Endpoints.with_format_exc W render) request headers).2
  = (Endpoints.create_message cfg W request headers).2
  /\ Endpoints.test_connection cfg (Endpoints.with_format_exc W render)
     = Endpoints.test_connection cfg W
  /\ (exc_http e = None -> exc_is_exception e = true ->
      (Endpoints.convert_claude_to_openai W request = Raise e ->
       Endpoints.respond (Endpoints.create_message cfg W request headers).2
       = Endpoints.JSONResponse 500
           (JObj [("detail",
                   JStr (Endpoints.classify_openai_error W Endpoints.openai_client
                           (exc_str e)))]))
      /\ forall openai_request,
           Endpoints.convert_claude_to_openai W request = Ret openai_request ->
           Endpoints.is_disconnected W = false ->
           (stream request = true ->
            Endpoints.create_chat_completion_stream W
              (Endpoints.current_client cfg openai_request) openai_request = Raise e ->
            Endpoints.respond (Endpoints.create_message cfg W request headers).2
            = Endpoints.JSONResponse 500
                (JObj [("detail",
                        JStr (Endpoints.classify_openai_error W Endpoints.openai_client
                                (exc_str e)))]))
           /\ (stream request = false ->
               Endpoints.create_chat_completion W
                 (Endpoints.current_client cfg openai_request) openai_request = Raise e ->
               Endpoints.respond (Endpoints.create_message cfg W request headers).2
               = Endpoints.JSONResponse 500
                   (JObj [("detail",
                           JStr (Endpoints.classify_openai_error W Endpoints.openai_client
                                   (exc_str e)))]))
           /\ (forall openai_response,
                 stream request = false ->
                 Endpoints.create_chat_completion W
                   (Endpoints.current_client cfg openai_request) openai_request
                 = Ret openai_response ->
                 Endpoints.convert_openai_to_claude_response W openai_response request
                 = Raise e ->
                 Endpoints.respond (Endpoints.create_message cfg W request headers).2
                 = Endpoints.JSONResponse 500
                     (JObj [("detail",
                             JStr (Endpoints.classify_openai_error W Endpoints.openai_client
                                     (exc_str e)))])))
  /\ (forall openai_request status detail,
        Endpoints.convert_claude_to_openai W request = Ret openai_request ->
        Endpoints.is_disconnected W = false ->
        exc_http e = Some (status, detail) ->
        (stream request = true ->
         Endpoints.create_chat_completion_stream W
           (Endpoints.current_client cfg openai_request) openai_request = Raise e ->
         Endpoints.respond (Endpoints.create_message cfg W request headers).2
         = Endpoints.JSONResponse status
             (JObj [("type", JStr "error");
                    ("error",
                     JObj [("type", JStr "api_error");
                           ("message",
                            JStr (Endpoints.classify_openai_error W
                                    (Endpoints.current_client cfg openai_request)
                                    detail))])]))
        /\ (stream request = false ->
            Endpoints.create_chat_completion W
              (Endpoints.current_client cfg openai_request) openai_request = Raise e ->
            Endpoints.body_allowed status = true ->
            Endpoints.respond (Endpoints.create_message cfg W request headers).2
            = Endpoints.JSONResponse status (JObj [("detail", JStr detail)])))
  /\ (Endpoints.create_chat_completion W Endpoints.openai_client (Endpoints.test_request cfg)
      = Raise e ->
      is_exception e = true ->
      Endpoints.test_connection cfg W
      = Ret (Endpoints.JSONResponse 503
               (JObj [("status", JStr "failed");
                      ("error_type", JStr "API Error");
                      ("message", JStr (exc_str e));
                      ("timestamp", JStr (Endpoints.now_isoformat W));
                      ("suggestions",
                       JList [JStr "Check your OPENAI_API_KEY is valid";
                              JStr "Verify your API key has the necessary permissions";
                              JStr "Check if you have reached rate limits"])])))
  /\ (is_exception e = true ->
      Endpoints.count_tokens_failure e
      = Endpoints.JSONResponse 500 (JObj [("detail", JStr (exc_str e))])).
Proof.
  split; [apply create_message_ignores_traceback|].
  split; [reflexivity|].
  split; [|split; [|split]].
  - intros Hplain Hexc.
    destruct (create_message_raised cfg W request headers e Hplain) as [Hconv Hrest].
    assert (Hanswer : Endpoints.respond (Endpoints.outer_except W e).2
                      = Endpoints.JSONResponse 500
                          (JObj [("detail",
                                  JStr (Endpoints.classify_openai_error W
                                          Endpoints.openai_client (exc_str e)))])).
    { now rewrite (outer_except_exception _ _ Hplain Hexc). }
    split.
    + intros Hc. now rewrite (Hconv Hc).
    + intros oreq Hc Hd. destruct (Hrest oreq Hc Hd) as (Hs & Hn & Hr).
      repeat split.
      * intros H1 H2. now rewrite (Hs H1 H2).
      * intros H1 H2. now rewrite (Hn H1 H2).
      * intros r H1 H2 H3. now rewrite (Hr r H1 H2 H3).
  - intros oreq status detail Hc Hd Hhttp.
    rewrite (create_message_connected _ _ _ _ _ Hc Hd). split.
    + intros Hs Hcall. rewrite Hs, Hcall, Hhttp. reflexivity.
    + intros Hs Hcall Hbody. rewrite Hs, Hcall. cbn [Endpoints.after snd].
      unfold Endpoints.outer_except. rewrite Hhttp. cbn [snd Endpoints.respond].
      rewrite Hhttp. unfold Endpoints.http_exception_handler. now rewrite Hbody.
  - intros Hcall Hexc. unfold Endpoints.test_connection. now rewrite Hcall, Hexc.
  - intros Hexc. unfold Endpoints.count_tokens_failure, Tokens.count_tokens_except.
    rewrite Hexc. reflexivity.
Qed.

Lemma error_messages_by_endpoint_witness :
  Endpoints.create_chat_completion (Fixtures.backend_down (default_config "sk-live"))
    Endpoints.openai_client (Endpoints.test_request (default_config "sk-live"))
  = Raise Fixtures.connection_refused
  /\ is_exception Fixtures.connection_refused = true
  /\ Endpoints.test_connection (default_config "sk-live")
       (Fixtures.backend_down (default_config "sk-live"))
     = Ret (Endpoints.JSONResponse 503
              (JObj [("status", JStr "failed");
                     ("error_type", JStr "API Error");
                     ("message", JStr "ConnectError: [Errno 111] Connection refused");
                     ("timestamp", JStr "2025-01-01T00:00:00");
                     ("suggestions",
                      JList [JStr "Check your OPENAI_API_KEY is valid";
                             JStr "Verify your API key has the necessary permissions";
                             JStr "Check if you have reached rate limits"])])).
Proof.
  split; [reflexivity|]. split; [reflexivity|].
  exact (proj1 (proj2 (proj2 (proj2 (proj2
    (error_messages_by_endpoint (default_config "sk-live")
       (Fixtures.backend_down (default_config "sk-live")) (fun _ => "")
       (Fixtures.haiku_request false) [] Fixtures.connection_refused))))) eq_refl eq_refl).
Defined.

(** C3, as stated, fails: a 429 raised while the backend stream is opened
    reaches the caller with the kind [api_error], not [rate_limit]. *)
Lemma rate_limit_is_reported_as_api_error :
  Endpoints.json_body
    (Endpoints.post_v1_messages (default_config "sk-live")
       (Fixtures.backend_rate_limited (default_config "sk-live")) None None
       (Fixtures.haiku_request true) [])
  = Some (Endpoints.error_response "api_error" "Rate limit exceeded")
  /\ Endpoints.envelope_kind (Endpoints.error_response "api_error" "Rate limit exceeded")
     <> Some (Endpoints.taxonomy_kind 429).
Proof. split; [vm_compute; reflexivity | vm_compute; discriminate]. Qed.

(** C3, amended.  When opening the backend stream raises an [HTTPException],
    the caller is sent one JSON response with the status of the exception
    and the envelope whose kind is the constant [api_error] and whose message
    is the classifier's text for the detail. *)
Theorem streaming_error_kind_is_api_error
    (cfg : Config) (W : Endpoints.World) (request : ClaudeMessagesRequest)
    (headers : list (string * string)) (openai_request : list (string * json))
    (e : exc) (status : Z) (detail : string)
    (Hconv : Endpoints.convert_claude_to_openai W request = Ret openai_request)
    (Hconn : Endpoints.is_disconnected W = false)
    (Hstream : stream request = true)
    (Hcall : Endpoints.create_chat_completion_stream W
               (Endpoints.current_client cfg openai_request) openai_request = Raise e)
    (Hhttp : exc_http e = Some (status, detail)) :
  (Endpoints.create_message cfg W request headers).2
  = Ret (Endpoints.JSONResponse status
           (Endpoints.error_response "api_error"
              (Endpoints.classify_openai_error W
                 (Endpoints.current_client cfg openai_request) detail)))
  /\ Endpoints.envelope_kind
       (Endpoints.error_response "api_error"
          (Endpoints.classify_openai_error W
             (Endpoints.current_client cfg openai_request) detail))
     = Some "api_error".
Proof.
  split; [|reflexivity].
  unfold Endpoints.create_message. rewrite Hconv, Hconn, Hstream, Hcall, Hhttp.
  reflexivity.
Qed.

Lemma streaming_error_kind_is_api_error_witness :
  (Endpoints.create_message (default_config "sk-live")
     (Fixtures.backend_rate_limited (default_config "sk-live"))
     (Fixtures.haiku_request true) []).2
  = Ret (Endpoints.JSONResponse 429
           (Endpoints.error_response "api_error" "Rate limit exceeded")).
Proof.
  exact (proj1 (streaming_error_kind_is_api_error (default_config "sk-live")
                  (Fixtures.backend_rate_limited (default_config "sk-live"))
                  (Fixtures.haiku_request true) [] Fixtures.haiku_fields_streaming
                  Fixtures.rate_limited 429 "Rate limit exceeded"
                  eq_refl eq_refl eq_refl eq_refl eq_refl)).
Defined.

(** C4, as stated, fails: for a caller that has gone, the handler raises a
    499 and the framework answers it with a body. *)
Lemma disconnected_caller_gets_a_body :
  Endpoints.post_v1_messages (default_config "sk-live")
    (Fixtures.caller_gone (default_config "sk-live")) None None
    (Fixtures.haiku_request false) []
  = Endpoints.JSONResponse 499 (JObj [("detail", JStr "Client disconnected")])
  /\ Endpoints.has_payload
       (Endpoints.JSONResponse 499 (JObj [("detail", JStr "Client disconnected")])) = true.
Proof. split; vm_compute; reflexivity. Qed.

(** C4, amended.  When the request has been translated and the caller has
    gone, [create_message] asks the backend nothing and raises
    [HTTPException(499, "Client disconnected")], which leaves the handler as
    it is and is answered with status 499 and the body
    [{"detail": "Client disconnected"}]. *)
Theorem disconnected_before_processing
    (cfg : Config) (W : Endpoints.World) (request : ClaudeMessagesRequest)
    (headers : list (string * string)) (openai_request : list (string * json))
    (Hconv : Endpoints.convert_claude_to_openai W request = Ret openai_request)
    (Hgone : Endpoints.is_disconnected W = true) :
  (Endpoints.create_message cfg W request headers).2
  = Raise (HTTPException 499 "Client disconnected")
  /\ Endpoints.backend_calls (Endpoints.create_message cfg W request headers).1 = []
  /\ Endpoints.respond (Endpoints.create_message cfg W request headers).2
     = Endpoints.JSONResponse 499 (JObj [("detail", JStr "Client disconnected")]).
Proof.
  unfold Endpoints.create_message. rewrite Hconv, Hgone. repeat split.
Qed.

Lemma disconnected_before_processing_witness :
  Endpoints.backend_calls
    (Endpoints.create_message (default_config "sk-live")
       (Fixtures.caller_gone (default_config "sk-live"))
       (Fixtures.haiku_request true) []).1 = [].
Proof.
  exact (proj1 (proj2 (disconnected_before_processing (default_config "sk-live")
                         (Fixtures.caller_gone (default_config "sk-live"))
                         (Fixtures.haiku_request true) [] Fixtures.haiku_fields_streaming
                         eq_refl eq_refl))).
Defined.

(** ** Block accounting of the streaming translator *)

Section StreamFacts.
Import StreamTranslator.

Lemma opened_app es es' : opened (es ++ es') = (opened es ++ opened es')%list.
Proof. apply omap_app. Qed.

Lemma closed_app es es' : closed (es ++ es') = (closed es ++ closed es')%list.
Proof. apply omap_app. Qed.

Lemma accounted_initial : accounted initial [].
Proof. split; cbn; try reflexivity; intros; discriminate. Qed.

(** Events that open and close nothing leave the invariant as it is. *)
Lemma accounted_quiet s s' es es' :
  accounted s es ->
  opened es' = [] -> closed es' = [] ->
  next_index s' = next_index s -> open_block s' = open_block s ->
  phase s' = phase s ->
  accounted s' (es ++ es').
Proof.
  intros [Ho Hc Hl He] Ho' Hc' Hn Hb Hp. split.
  - now rewrite opened_app, Ho', app_nil_r, Hn.
  - rewrite closed_app, Hc', app_nil_r, Hn. unfold pending. now rewrite Hb.
  - intros i k. rewrite Hb, Hn. apply Hl.
  - unfold is_terminal. rewrite Hp, Hb. exact He.
Qed.

(** The step that recurs below: the events added open and close no block and
    the state keeps its index, its open block and its phase. *)
Ltac quiet_after H := eapply accounted_quiet; [exact H | reflexivity ..].

Lemma close_open_accounted flush s es :
  accounted s es -> is_terminal s = false ->
  accounted (close_open flush s).1 (es ++ (close_open flush s).2)
  /\ open_block (close_open flush s).1 = None
  /\ next_index (close_open flush s).1 = next_index s
  /\ phase (close_open flush s).1 = phase s.
Proof.
  intros [Ho Hc Hl He] Hterm. unfold close_open.
  destruct (open_block s) as [[i kind]|] eqn:Hb; cbn [fst snd].
  - repeat split; cbn [next_index open_block phase]; try reflexivity.
    + rewrite opened_app, Ho. destruct kind, flush; cbn; now rewrite app_nil_r.
    + rewrite closed_app, Hc. unfold pending at 1. rewrite Hb.
      rewrite (Hl i kind eq_refl). cbn [pending open_block].
      replace (S i - 1)%nat with i by lia. replace (S i - 0)%nat with (S i) by lia.
      rewrite seq_S. destruct kind, flush; reflexivity.
    + intros; discriminate.
  - repeat split; try assumption; try reflexivity.
    + now rewrite app_nil_r.
    + now rewrite app_nil_r.
    + rewrite Hb. intros; discriminate.
    + intros _. exact Hb.
Qed.

Lemma open_new_accounted kind s es :
  accounted s es -> open_block s = None -> is_terminal s = false ->
  accounted (open_new kind s).1 (es ++ (open_new kind s).2).
Proof.
  intros [Ho Hc Hl He] Hb Hterm. unfold open_new. cbn [fst snd]. split.
  - rewrite opened_app, Ho. cbn [next_index]. now rewrite seq_S.
  - rewrite closed_app, Hc. cbn. rewrite app_nil_r. unfold pending. rewrite Hb.
    f_equal; lia.
  - cbn. intros i k [= <- <-]. reflexivity.
  - unfold is_terminal in *. cbn [phase]. rewrite Hterm. discriminate.
Qed.

Lemma reopen_accounted kind s es :
  accounted s es -> is_terminal s = false ->
  accounted (reopen kind s).1 (es ++ (reopen kind s).2)
  /\ phase (reopen kind s).1 = phase s.
Proof.
  intros Hacc Hterm. unfold reopen.
  destruct (close_open_accounted false s es Hacc Hterm) as (H1 & Hnone & Hn & Hp).
  destruct (close_open false s) as [s1 closing]. cbn [fst snd] in *.
  assert (Hterm1 : is_terminal s1 = false) by (unfold is_terminal in *; now rewrite Hp).
  pose proof (open_new_accounted kind s1 _ H1 Hnone Hterm1) as H2.
  unfold open_new in *. cbn [fst snd phase] in *.
  rewrite app_assoc. split; assumption.
Qed.

Lemma on_text_accounted fragment s es :
  accounted s es -> is_terminal s = false ->
  accounted (on_text fragment s).1 (es ++ (on_text fragment s).2)
  /\ phase (on_text fragment s).1 = phase s.
Proof.
  intros Hacc Hterm. unfold on_text.
  pose proof (reopen_accounted TextKind s es Hacc Hterm) as [Hre Hp].
  destruct (open_block s) as [[i [|id]]|];
    [ cbn [fst snd]; split; [|reflexivity];
      quiet_after Hacc
    | destruct (reopen TextKind s) as [s1 es1]; cbn [fst snd] in *;
      split; [|exact Hp]; rewrite app_assoc;
      quiet_after Hre .. ].
Qed.

Lemma on_tool_accounted f s es :
  accounted s es -> is_terminal s = false ->
  accounted (on_tool f s).1 (es ++ (on_tool f s).2)
  /\ phase (on_tool f s).1 = phase s.
Proof.
  intros Hacc Hterm. unfold on_tool.
  destruct (same_call (call_id f) s) as [i|]; cbn [fst snd].
  - split; [|reflexivity]. quiet_after Hacc.
  - pose proof (reopen_accounted (ToolUseKind (call_id f)) s es Hacc Hterm) as [Hre Hp].
    destruct (reopen (ToolUseKind (call_id f)) s) as [s1 es1]. cbn [fst snd] in *.
    split; [|exact Hp].
    rewrite <- (app_nil_r (es ++ es1)).
    quiet_after Hre.
Qed.

Lemma on_finish_accounted reason s es :
  accounted s es -> is_terminal s = false ->
  accounted (on_finish reason s).1 (es ++ (on_finish reason s).2)
  /\ phase (on_finish reason s).1 = Done.
Proof.
  intros Hacc Hterm. unfold on_finish.
  destruct (close_open_accounted true s es Hacc Hterm) as ([Ho Hc Hl He] & Hnone & Hn & Hp).
  destruct (close_open true s) as [s1 closing] eqn:Hclose. cbn [fst snd] in *.
  split; [|reflexivity]. split; cbn [next_index open_block].
  - rewrite app_assoc, opened_app, Ho. cbn. now rewrite app_nil_r.
  - rewrite app_assoc, closed_app, Hc. cbn. rewrite app_nil_r.
    unfold pending. now rewrite Hnone.
  - intros; discriminate.
  - reflexivity.
Qed.

Lemma accounted_settled s s' es es' :
  accounted s es ->
  opened es' = [] -> closed es' = [] ->
  next_index s' = next_index s -> open_block s' = open_block s ->
  (is_terminal s' = true -> open_block s' = None) ->
  accounted s' (es ++ es').
Proof.
  intros [Ho Hc Hl He] Ho' Hc' Hn Hb Hend. split.
  - now rewrite opened_app, Ho', app_nil_r, Hn.
  - rewrite closed_app, Hc', app_nil_r, Hn. unfold pending. now rewrite Hb.
  - intros i k. rewrite Hb, Hn. apply Hl.
  - exact Hend.
Qed.

Lemma optionally_accounted {A : Type} (f : A -> State -> State * list Event) o s es :
  (forall a, accounted (f a s).1 (es ++ (f a s).2)) ->
  accounted s es ->
  accounted (optionally f o s).1 (es ++ (optionally f o s).2).
Proof.
  intros Hf Hacc. destruct o as [a|]; cbn [optionally fst snd]; [apply Hf|].
  now rewrite app_nil_r.
Qed.

Lemma on_payload_accounted c s es :
  accounted s es -> is_terminal s = false ->
  accounted (on_payload c s).1 (es ++ (on_payload c s).2).
Proof.
  intros Hacc Hterm. unfold on_payload.
  assert (H1 : accounted (optionally on_text (text_fragment c) s).1
                 (es ++ (optionally on_text (text_fragment c) s).2)
               /\ phase (optionally on_text (text_fragment c) s).1 = phase s).
  { destruct (text_fragment c) as [t|]; cbn [optionally fst snd].
    - now apply on_text_accounted.
    - now rewrite app_nil_r. }
  destruct (optionally on_text (text_fragment c) s) as [s1 e1]. cbn [fst snd] in H1.
  destruct H1 as [H1 Hp1].
  assert (Hterm1 : is_terminal s1 = false) by (unfold is_terminal in *; now rewrite Hp1).
  assert (H2 : accounted (optionally on_tool (tool_fragment c) s1).1
                 ((es ++ e1) ++ (optionally on_tool (tool_fragment c) s1).2)
               /\ phase (optionally on_tool (tool_fragment c) s1).1 = phase s1).
  { destruct (tool_fragment c) as [f|]; cbn [optionally fst snd].
    - now apply on_tool_accounted.
    - now rewrite app_nil_r. }
  destruct (optionally on_tool (tool_fragment c) s1) as [s2 e2]. cbn [fst snd] in H2.
  destruct H2 as [H2 Hp2].
  assert (Hterm2 : is_terminal s2 = false) by (unfold is_terminal in *; now rewrite Hp2).
  assert (H3 : accounted (optionally on_finish (finish_reason c) s2).1
                 (((es ++ e1) ++ e2) ++ (optionally on_finish (finish_reason c) s2).2)).
  { destruct (finish_reason c) as [r|]; cbn [optionally fst snd].
    - now apply on_finish_accounted.
    - now rewrite app_nil_r. }
  destruct (optionally on_finish (finish_reason c) s2) as [s3 e3]. cbn [fst snd] in *.
  now rewrite !app_assoc.
Qed.

Lemma ending_accounted s es last (p : Phase) :
  accounted s es -> is_terminal s = false ->
  opened [last] = [] -> closed [last] = [] ->
  accounted {| phase := p; next_index := next_index s; open_block := None; buffer := "" |}
            (es ++ (close_open false s).2 ++ [last]).
Proof.
  intros Hacc Hterm Ho Hc.
  destruct (close_open_accounted false s es Hacc Hterm) as (H1 & Hnone & Hn & _).
  rewrite app_assoc.
  eapply accounted_settled; [exact H1 | assumption | assumption | | | ]; cbn.
  - now rewrite Hn.
  - now rewrite Hnone.
  - reflexivity.
Qed.

Lemma step_accounted s u es :
  accounted s es -> accounted (step s u).1 (es ++ (step s u).2).
Proof.
  intros Hacc. unfold step.
  destruct (phase s) eqn:Hp.
  - (* Idle *)
    assert (Hterm : is_terminal s = false) by (unfold is_terminal; now rewrite Hp).
    destruct u as [c| |m|]; cbn [fst snd].
    + destruct (chunk_role c) as [r|]; cbn [fst snd]; [|now rewrite app_nil_r].
      set (s0 := {| phase := MessageOpen; next_index := next_index s;
                    open_block := open_block s; buffer := buffer s |}).
      assert (H0 : accounted s0 (es ++ [MessageStart r])).
      { eapply accounted_settled; [exact Hacc | reflexivity ..| discriminate]. }
      pose proof (on_payload_accounted c s0 _ H0 eq_refl) as H1.
      destruct (on_payload c s0) as [s1 es1]. cbn [fst snd] in *.
      now rewrite <- app_assoc in H1.
    + quiet_after Hacc.
    + now apply ending_accounted.
    + now apply ending_accounted.
  - (* MessageOpen *)
    assert (Hterm : is_terminal s = false) by (unfold is_terminal; now rewrite Hp).
    destruct u as [c| |m|]; cbn [fst snd].
    + now apply on_payload_accounted.
    + quiet_after Hacc.
    + now apply ending_accounted.
    + now apply ending_accounted.
  - cbn [fst snd]. now rewrite app_nil_r.
  - cbn [fst snd]. now rewrite app_nil_r.
Qed.

Lemma at_end_accounted s es :
  accounted s es ->
  accounted (at_end s).1 (es ++ (at_end s).2) /\ is_terminal (at_end s).1 = true.
Proof.
  intros Hacc. unfold at_end, is_terminal. destruct (phase s) eqn:Hp; cbn [fst snd].
  - split; [|reflexivity].
    assert (Hterm : is_terminal s = false) by (unfold is_terminal; now rewrite Hp).
    destruct (close_open_accounted false s es Hacc Hterm) as (H1 & Hnone & Hn & _).
    rewrite <- (app_nil_r (es ++ _)).
    eapply accounted_settled; [exact H1 | reflexivity | reflexivity | | | ]; cbn.
    + now rewrite Hn.
    + now rewrite Hnone.
    + reflexivity.
  - assert (Hterm : is_terminal s = false) by (unfold is_terminal; now rewrite Hp).
    destruct (on_finish_accounted "stop" s es Hacc Hterm) as [H1 Hdone].
    split; [exact H1 | now rewrite Hdone].
  - rewrite app_nil_r, Hp. split; [exact Hacc | reflexivity].
  - rewrite app_nil_r, Hp. split; [exact Hacc | reflexivity].
Qed.

Lemma run_accounted inputs s es :
  accounted s es ->
  accounted (run s inputs).1 (es ++ (run s inputs).2)
  /\ is_terminal (run s inputs).1 = true.
Proof.
  revert s es. induction inputs as [|u rest IH]; intros s es Hacc; cbn [run].
  - now apply at_end_accounted.
  - pose proof (step_accounted s u es Hacc) as H1.
    destruct (step s u) as [s1 es1]. cbn [fst snd] in H1.
    pose proof (IH s1 _ H1) as H2.
    destruct (run s1 rest) as [s2 more]. cbn [fst snd] in *.
    now rewrite app_assoc.
Qed.

Lemma translate_accounted inputs :
  accounted (final_state inputs) (translate inputs)
  /\ open_block (final_state inputs) = None.
Proof.
  destruct (run_accounted inputs initial [] accounted_initial) as [Hacc Hterm].
  split; [exact Hacc|]. exact (acc_ended _ _ Hacc Hterm).
Qed.

End StreamFacts.

(** C8.  In every event sequence of the stream translator, however upstream
    goes and ends (a terminal chunk, an upstream failure, the caller's
    disconnection, or upstream simply running out), the blocks are opened
    with the indices 0, 1, 2, ... in this order, none skipped and none used
    twice, and the blocks closed are the blocks opened, in the same order;
    so there are as many content-block-close events as content-block-open
    events. *)
Theorem block_accounting (inputs : list StreamTranslator.Upstream) :
  StreamTranslator.opened (StreamTranslator.translate inputs)
  = seq 0 (length (StreamTranslator.opened (StreamTranslator.translate inputs)))
  /\ StreamTranslator.closed (StreamTranslator.translate inputs)
     = StreamTranslator.opened (StreamTranslator.translate inputs)
  /\ length (StreamTranslator.closed (StreamTranslator.translate inputs))
     = length (StreamTranslator.opened (StreamTranslator.translate inputs)).
Proof.
  destruct (translate_accounted inputs) as [[Ho Hc Hl He] Hnone].
  assert (Heq : StreamTranslator.closed (StreamTranslator.translate inputs)
                = StreamTranslator.opened (StreamTranslator.translate inputs)).
  { rewrite Hc, Ho. unfold StreamTranslator.pending. rewrite Hnone. f_equal. lia. }
  split; [|split; [exact Heq | now rewrite Heq]].
  rewrite Ho at 2. now rewrite length_seq.
Qed.

Example translate_cut_off :
  StreamTranslator.translate [StreamTranslator.Received (Fixtures.text_chunk true "Hel")]
  = [StreamTranslator.MessageStart "assistant";
     StreamTranslator.ContentBlockStart 0 StreamTranslator.TextKind;
     StreamTranslator.ContentBlockDelta 0 "Hel";
     StreamTranslator.ContentBlockStop 0;
     StreamTranslator.MessageDelta "end_turn";
     StreamTranslator.MessageStop].
Proof. reflexivity. Qed.

Example translate_three_fragments :
  StreamTranslator.translate Fixtures.three_fragments
  = [StreamTranslator.MessageStart "assistant";
     StreamTranslator.ContentBlockStart 0 StreamTranslator.TextKind;
     StreamTranslator.ContentBlockDelta 0 "Hel";
     StreamTranslator.ContentBlockDelta 0 "lo ";
     StreamTranslator.ContentBlockDelta 0 "you";
     StreamTranslator.ContentBlockStop 0;
     StreamTranslator.MessageDelta "end_turn";
     StreamTranslator.MessageStop].
Proof. reflexivity. Qed.

Example translate_cut_short :
  StreamTranslator.opened (StreamTranslator.translate Fixtures.cut_short) = [0; 1; 2]%nat
  /\ StreamTranslator.closed (StreamTranslator.translate Fixtures.cut_short) = [0; 1; 2]%nat
  /\ last (StreamTranslator.translate Fixtures.cut_short) = Some StreamTranslator.CancelledEvent
  /\ length (List.filter
               (fun e => match e with StreamTranslator.CancelledEvent => true | _ => false end)
               (StreamTranslator.translate Fixtures.cut_short)) = 1%nat.
Proof. repeat split; reflexivity. Qed.

Example python_string_samples :
  remove_all "Bearer " "Bearer sk-ant-1" = "sk-ant-1"
  /\ remove_all "Bearer " "Bearer aBearer b" = "ab"
  /\ lower "Claude-3-HAIKU" = "claude-3-haiku"
  /\ contains "haiku" "claude-3-haiku" = true
  /\ contains "opus" "claude-3-haiku" = false
  /\ str_of_int 499 = "499".
Proof. repeat split; reflexivity. Qed.

Example route_tier_samples :
  Translator.route_tier "claude-3-5-HAIKU-20241022" = Translator.Small
  /\ Translator.route_tier "claude-opus-4" = Translator.Large
  /\ Translator.route_tier "claude-sonnet-4" = Translator.Middle
  /\ Translator.route_tier "gpt-4o" = Translator.Middle.
Proof. repeat split; reflexivity. Qed.

(** A second input of the same kind for the client-key check: a configured
    key that itself contains ["Bearer "] is refused when it is sent, as it
    is, after the prefix. *)
Example validate_api_key_key_with_bearer :
  Auth.raises_401
    (Auth.validate_api_key (Fixtures.keyed_config "team Bearer token") None
       (Some "Bearer team Bearer token")) = true
  /\ Auth.documented_rejects (Fixtures.keyed_config "team Bearer token") None
       (Some "Bearer team Bearer token") = false.
Proof. split; vm_compute; reflexivity. Qed.


(** * Further properties of the code *)

(** ** The client-key check, case by case *)

Section BearerFacts.

Lemma remove_go_skip old u t :
  remove_go old (String.length u) (u ++ t) = remove_go old O t.
Proof.
  induction u as [|c u IH]; [reflexivity|].
  cbn [String.length String.append remove_go]. exact IH.
Qed.

Lemma remove_go_absent old t :
  contains old t = false -> remove_go old O t = t.
Proof.
  induction t as [|c t IH]; [reflexivity|].
  cbn [contains remove_go].
  destruct (String.prefix old (String c t)); [discriminate|].
  intros H. now rewrite (IH H).
Qed.

Lemma remove_bearer_prefix t :
  remove_all "Bearer " ("Bearer " ++ t) = remove_all "Bearer " t.
Proof.
  unfold remove_all.
  change ("Bearer " ++ t) with (String "B" ("earer " ++ t)).
  cbn [remove_go].
  replace (String.prefix "Bearer " (String "B" ("earer " ++ t))) with true.
  - apply (remove_go_skip "Bearer " "earer " t).
  - cbn. now destruct t.
Qed.

End BearerFacts.

(** X1.  With a non-empty [x-api-key] header the [Authorization] header
    plays no part: when a key is configured, the request is accepted exactly
    when the [x-api-key] value is that key, whatever [Authorization] says. *)
Theorem x_api_key_decides
    (cfg : Config) (expected k : string) (authorization : option string)
    (Hcfg : anthropic_api_key cfg = Some expected)
    (Hexp : nonempty expected = true)
    (Hk : nonempty k = true) :
  (Auth.validate_api_key cfg (Some k) authorization = Ret tt <-> k = expected)
  /\ (k <> expected ->
      Auth.validate_api_key cfg (Some k) authorization
      = Raise (HTTPException 401 Auth.invalid_key_detail)).
Proof.
  unfold Auth.validate_api_key, Auth.client_api_key, validate_client_api_key.
  cbn [truthy]. rewrite Hk, Hcfg. cbn [truthy]. rewrite Hexp, Hk. cbn [negb orb].
  destruct (String.eqb k expected) eqn:E; cbn [negb].
  - apply String.eqb_eq in E. split; [tauto | congruence].
  - apply String.eqb_neq in E. split; [|reflexivity].
    split; [discriminate | congruence].
Qed.

Lemma x_api_key_decides_witness :
  Auth.validate_api_key (Fixtures.keyed_config "sk-key") (Some "sk-key")
    (Some "Bearer something-else") = Ret tt.
Proof.
  exact (proj2 (proj1 (x_api_key_decides (Fixtures.keyed_config "sk-key") "sk-key" "sk-key"
                         (Some "Bearer something-else") eq_refl eq_refl eq_refl)) eq_refl).
Defined.

(** X2.  Without an [x-api-key] value, an [Authorization] header
    ["Bearer " + token] whose token holds no further ["Bearer "] is accepted
    exactly when the token is the configured key. *)
Theorem bearer_token_decides
    (cfg : Config) (expected token : string) (x_api_key : option string)
    (Hcfg : anthropic_api_key cfg = Some expected)
    (Hexp : nonempty expected = true)
    (Hx : truthy x_api_key = false)
    (Hclean : contains "Bearer " token = false) :
  Auth.validate_api_key cfg x_api_key (Some ("Bearer " ++ token)) = Ret tt
  <-> token = expected.
Proof.
  unfold Auth.validate_api_key, Auth.client_api_key, validate_client_api_key.
  rewrite Hx, Hcfg. cbn [truthy]. rewrite Hexp. cbn [negb].
  replace (nonempty ("Bearer " ++ token) && startswith "Bearer " ("Bearer " ++ token))%bool
    with true by (cbn; now destruct token).
  rewrite remove_bearer_prefix. unfold remove_all. rewrite (remove_go_absent _ _ Hclean).
  destruct (nonempty token) eqn:Hne; cbn [negb orb].
  - destruct (String.eqb token expected) eqn:E; cbn [negb].
    + apply String.eqb_eq in E. tauto.
    + apply String.eqb_neq in E. split; [discriminate | congruence].
  - apply nonempty_false in Hne. subst token. split; [discriminate|].
    intros <-. discriminate.
Qed.

Lemma bearer_token_decides_witness :
  Auth.validate_api_key (Fixtures.keyed_config "sk-key") None (Some "Bearer sk-key") = Ret tt.
Proof.
  exact (proj2 (bearer_token_decides (Fixtures.keyed_config "sk-key") "sk-key" "sk-key" None
                  eq_refl eq_refl eq_refl eq_refl) eq_refl).
Defined.

(** X3.  When a key is configured, a request with no usable credentials is
    refused with the 401: no [x-api-key] value, and an [Authorization] header
    that is missing or does not start with ["Bearer "] (a bare key, another
    scheme, another spelling of the scheme). *)
Theorem no_bearer_is_refused
    (cfg : Config) (expected : string) (x_api_key authorization : option string)
    (Hcfg : anthropic_api_key cfg = Some expected)
    (Hexp : nonempty expected = true)
    (Hx : truthy x_api_key = false)
    (Hauth : match authorization with
             | Some a => startswith "Bearer " a = false
             | None => True
             end) :
  Auth.validate_api_key cfg x_api_key authorization
  = Raise (HTTPException 401 Auth.invalid_key_detail).
Proof.
  unfold Auth.validate_api_key, Auth.client_api_key.
  rewrite Hx, Hcfg. cbn [truthy]. rewrite Hexp. cbn [negb].
  destruct authorization as [a|]; [|reflexivity].
  rewrite Hauth, andb_false_r. reflexivity.
Qed.

Lemma no_bearer_is_refused_witness :
  Auth.validate_api_key (Fixtures.keyed_config "sk-key") (Some "") (Some "sk-key")
  = Raise (HTTPException 401 Auth.invalid_key_detail).
Proof.
  exact (no_bearer_is_refused (Fixtures.keyed_config "sk-key") "sk-key" (Some "")
           (Some "sk-key") eq_refl eq_refl eq_refl eq_refl).
Defined.

(** ** Loading the configuration *)

Section LoaderFacts.
Import Settings.

Variable py_int : string -> outcome Z.
Variable json_loads : string -> loads_result.

Lemma bind_ret {A B : Type} (r : outcome A) (k : A -> outcome B) b :
  bind r k = Ret b -> exists a, r = Ret a /\ k a = Ret b.
Proof. destruct r as [a|e]; cbn; [eauto | discriminate]. Qed.

(** What a successful load has read. *)
Lemma Config_init_ret env config :
  Config_init py_int json_loads env = Ret config ->
  truthy (env "OPENAI_API_KEY") = true
  /\ openai_api_key (core config) = env "OPENAI_API_KEY"
  /\ anthropic_api_key (core config) = env "ANTHROPIC_API_KEY"
  /\ openai_base_url (core config) = getenv env "OPENAI_BASE_URL" "https://api.openai.com/v1"
  /\ small_model_base_url (core config)
     = getenv env "SMALL_MODEL_BASE_URL" (openai_base_url (core config))
  /\ small_model_api_key (core config)
     = match env "SMALL_MODEL_API_KEY" with
       | Some k => Some k
       | None => openai_api_key (core config)
       end
  /\ big_model (core config) = getenv env "BIG_MODEL" "gpt-4o"
  /\ middle_model (core config) = getenv env "MIDDLE_MODEL" (big_model (core config))
  /\ py_int (getenv env "MAX_TOKENS_LIMIT" "4096") = Ret (max_tokens_limit (core config))
  /\ py_int (getenv env "MIN_TOKENS_LIMIT" "100") = Ret (min_tokens_limit (core config))
  /\ py_int (getenv env "PORT" "8082") = Ret (port config)
  /\ log_level config = getenv env "LOG_LEVEL" "INFO".
Proof.
  unfold Config_init.
  destruct (truthy (env "OPENAI_API_KEY")) eqn:Hk; cbn [negb]; [|discriminate].
  intros H.
  apply bind_ret in H as (be & Hbe & H).
  apply bind_ret in H as (se & Hse & H).
  apply bind_ret in H as (p & Hp & H).
  apply bind_ret in H as (mx & Hmx & H).
  apply bind_ret in H as (mn & Hmn & H).
  apply bind_ret in H as (t & Ht & H).
  apply bind_ret in H as (r & Hr & H).
  injection H as <-. cbn. repeat split; assumption.
Qed.

End LoaderFacts.

(** X4.  Without a backend key the configuration does not load: when
    [OPENAI_API_KEY] is unset or empty, [Config()] raises the [ValueError]
    about the missing key before it reads anything else, and the module
    exits with status 1. *)
Theorem backend_key_is_required
    (py_int : string -> outcome Z) (json_loads : string -> Settings.loads_result)
    (env : Settings.Environ)
    (Hkey : truthy (env "OPENAI_API_KEY") = false) :
  Settings.Config_init py_int json_loads env
  = Raise (Settings.ValueError "OPENAI_API_KEY not found in environment variables")
  /\ Settings.load py_int json_loads env = Settings.Exited 1.
Proof.
  unfold Settings.load, Settings.Config_init. rewrite Hkey. split; reflexivity.
Qed.

Lemma backend_key_is_required_witness :
  Settings.load Samples.plain_int Samples.no_json Samples.nothing_set = Settings.Exited 1.
Proof.
  exact (proj2 (backend_key_is_required Samples.plain_int Samples.no_json
                  Samples.nothing_set eq_refl)).
Defined.

(** X5.  The configuration loads exactly when the backend key is set
    and non-empty, [json.loads] raises nothing but a [JSONDecodeError] on the
    two extra-body variables, and [int] accepts each of the five integer
    settings (port, the two token limits, the request timeout, the retry
    count; each with its default when unset); a [JSONDecodeError] is
    ignored.  When it does not load and every exception the two library
    functions raise is an [Exception], the module exits with status 1. *)
Theorem load_succeeds_iff
    (py_int : string -> outcome Z) (json_loads : string -> Settings.loads_result)
    (env : Settings.Environ) :
  ((exists config, Settings.load py_int json_loads env = Settings.Configured config)
   <-> (truthy (env "OPENAI_API_KEY") = true
        /\ (forall name, In name ["BIG_MODEL_EXTRA_BODY"; "SMALL_MODEL_EXTRA_BODY"] ->
                         exists body, Settings._parse_json_env json_loads env name = Ret body)
        /\ (forall name fallback,
               In (name, fallback)
                  [("PORT", "8082"); ("MAX_TOKENS_LIMIT", "4096");
                   ("MIN_TOKENS_LIMIT", "100"); ("REQUEST_TIMEOUT", "90");
                   ("MAX_RETRIES", "2")] ->
               exists n, py_int (Settings.getenv env name fallback) = Ret n)))
  /\ (forall name value e,
        env name = Some value -> json_loads value = Settings.LoadsRaised e ->
        nonempty value = true ->
        Settings._parse_json_env json_loads env name = Raise e)
  /\ (forall name value,
        env name = Some value -> json_loads value = Settings.DecodeError ->
        Settings._parse_json_env json_loads env name = Ret None)
  /\ ((forall text e, py_int text = Raise e -> is_exception e = true) ->
      (forall text e, json_loads text = Settings.LoadsRaised e -> is_exception e = true) ->
      (exists config, Settings.load py_int json_loads env = Settings.Configured config)
      \/ Settings.load py_int json_loads env = Settings.Exited 1).
Proof.
  split; [|split; [|split]].
  - unfold Settings.load, Settings.Config_init.
    destruct (truthy (env "OPENAI_API_KEY")) eqn:Hk; cbn [negb].
    2:{ cbn. split; [intros (c & H); discriminate | intros (H & _); discriminate]. }
    destruct (Settings._parse_json_env json_loads env "BIG_MODEL_EXTRA_BODY")
      as [be|e0] eqn:Hbe; cbn [Settings.bind].
    2:{ split.
        - intros (c & H). destruct (is_exception e0); discriminate.
        - intros (_ & Hj & _). destruct (Hj "BIG_MODEL_EXTRA_BODY") as (b & Hb);
            [cbn; auto | congruence]. }
    destruct (Settings._parse_json_env json_loads env "SMALL_MODEL_EXTRA_BODY")
      as [se|e0] eqn:Hse; cbn [Settings.bind].
    2:{ split.
        - intros (c & H). destruct (is_exception e0); discriminate.
        - intros (_ & Hj & _). destruct (Hj "SMALL_MODEL_EXTRA_BODY") as (b & Hb);
            [cbn; auto | congruence]. }
    destruct (py_int (Settings.getenv env "PORT" "8082")) as [p|e0] eqn:Hp;
      cbn [Settings.bind].
    2:{ split.
        - intros (c & H). destruct (is_exception e0); discriminate.
        - intros (_ & _ & Hi). destruct (Hi "PORT" "8082") as (n & Hn);
            [cbn; auto | congruence]. }
    destruct (py_int (Settings.getenv env "MAX_TOKENS_LIMIT" "4096")) as [mx|e0] eqn:Hmx;
      cbn [Settings.bind].
    2:{ split.
        - intros (c & H). destruct (is_exception e0); discriminate.
        - intros (_ & _ & Hi). destruct (Hi "MAX_TOKENS_LIMIT" "4096") as (n & Hn);
            [cbn; auto | congruence]. }
    destruct (py_int (Settings.getenv env "MIN_TOKENS_LIMIT" "100")) as [mn|e0] eqn:Hmn;
      cbn [Settings.bind].
    2:{ split.
        - intros (c & H). destruct (is_exception e0); discriminate.
        - intros (_ & _ & Hi). destruct (Hi "MIN_TOKENS_LIMIT" "100") as (n & Hn);
            [cbn; auto | congruence]. }
    destruct (py_int (Settings.getenv env "REQUEST_TIMEOUT" "90")) as [t|e0] eqn:Ht;
      cbn [Settings.bind].
    2:{ split.
        - intros (c & H). destruct (is_exception e0); discriminate.
        - intros (_ & _ & Hi). destruct (Hi "REQUEST_TIMEOUT" "90") as (n & Hn);
            [cbn; auto 6 | congruence]. }
    destruct (py_int (Settings.getenv env "MAX_RETRIES" "2")) as [r|e0] eqn:Hr;
      cbn [Settings.bind].
    2:{ split.
        - intros (c & H). destruct (is_exception e0); discriminate.
        - intros (_ & _ & Hi). destruct (Hi "MAX_RETRIES" "2") as (n & Hn);
            [cbn; auto 7 | congruence]. }
    split; [|eauto]. intros _. split; [reflexivity|]. split.
    + intros name [<-|[<-|[]]]; eauto.
    + intros name fallback Hin. cbn in Hin.
      destruct Hin as [[= <- <-]|[[= <- <-]|[[= <- <-]|[[= <- <-]|[[= <- <-]|[]]]]]]; eauto.
  - intros name value e Hset Hraise Hne. unfold Settings._parse_json_env.
    now rewrite Hset, Hne, Hraise.
  - intros name value Hset Hdec. unfold Settings._parse_json_env.
    rewrite Hset, Hdec. now destruct (nonempty value).
  - intros Hint Hjson. unfold Settings.load.
    destruct (Settings.Config_init py_int json_loads env) as [c|e] eqn:Hinit; [eauto|].
    right. replace (is_exception e) with true; [reflexivity|]. symmetry.
    unfold Settings.Config_init in Hinit.
    destruct (truthy (env "OPENAI_API_KEY")); cbn [negb] in Hinit;
      [|injection Hinit as <-; reflexivity].
    assert (Hparse : forall name e',
               Settings._parse_json_env json_loads env name = Raise e' ->
               is_exception e' = true).
    { intros name e' H. unfold Settings._parse_json_env in H.
      destruct (env name) as [v|]; [|discriminate].
      destruct (nonempty v); [|discriminate].
      destruct (json_loads v) eqn:Hl; try discriminate.
      injection H as <-. eauto. }
    repeat match type of Hinit with
           | Settings.bind ?r _ = Raise _ =>
               let H := fresh "Hstep" in
               destruct r eqn:H; cbn [Settings.bind] in Hinit;
               [|injection Hinit as <-; eauto]
           end.
    discriminate.
Qed.

(** X6.  A deployment that sets neither [SMALL_MODEL_BASE_URL] nor
    [SMALL_MODEL_API_KEY] has one backend client: the small model inherits
    the base URL and the key of the main client, so [small_model_client] is
    [openai_client] and every request goes through it, whichever model it
    was translated to. *)
Theorem small_model_inherits_client
    (py_int : string -> outcome Z) (json_loads : string -> Settings.loads_result)
    (env : Settings.Environ) (config : Settings.Loaded)
    (Hload : Settings.Config_init py_int json_loads env = Ret config)
    (Hurl : env "SMALL_MODEL_BASE_URL" = None)
    (Hkey : env "SMALL_MODEL_API_KEY" = None) :
  small_model_base_url (Settings.core config) = openai_base_url (Settings.core config)
  /\ small_model_api_key (Settings.core config) = openai_api_key (Settings.core config)
  /\ Endpoints.small_model_client (Settings.core config) = Endpoints.openai_client
  /\ forall openai_request,
       Endpoints.current_client (Settings.core config) openai_request
       = Endpoints.openai_client.
Proof.
  destruct (Config_init_ret _ _ _ _ Hload)
    as (_ & _ & _ & _ & Hsu & Hsk & _).
  unfold Settings.getenv in Hsu. rewrite Hurl in Hsu. rewrite Hkey in Hsk.
  assert (Hsame : Endpoints.small_model_client (Settings.core config)
                  = Endpoints.openai_client).
  { unfold Endpoints.small_model_client. rewrite Hsu, Hsk, String.eqb_refl.
    destruct (openai_api_key (Settings.core config)) as [k|]; cbn;
      [now rewrite String.eqb_refl | reflexivity]. }
  repeat split; try assumption.
  intros openai_request. unfold Endpoints.current_client. rewrite Hsame.
  now destruct (Endpoints.is_small_model _ _).
Qed.

Lemma small_model_inherits_client_witness :
  Endpoints.small_model_client (Settings.core Samples.loaded_defaults)
  = Endpoints.openai_client.
Proof.
  exact (proj1 (proj2 (proj2
    (small_model_inherits_client Samples.plain_int Samples.no_json Samples.only_key
       Samples.loaded_defaults eq_refl eq_refl eq_refl)))).
Defined.

(** X7.  A deployment that leaves [ANTHROPIC_API_KEY] unset or empty checks
    no client key: every request passes the check, with any credentials or
    none. *)
Theorem unset_client_key_disables_check
    (py_int : string -> outcome Z) (json_loads : string -> Settings.loads_result)
    (env : Settings.Environ) (config : Settings.Loaded)
    (x_api_key authorization : option string)
    (Hload : Settings.Config_init py_int json_loads env = Ret config)
    (Hunset : truthy (env "ANTHROPIC_API_KEY") = false) :
  Auth.validate_api_key (Settings.core config) x_api_key authorization = Ret tt.
Proof.
  destruct (Config_init_ret _ _ _ _ Hload) as (_ & _ & Ha & _).
  apply validate_api_key_disabled. now rewrite Ha.
Qed.

Lemma unset_client_key_disables_check_witness :
  Auth.validate_api_key (Settings.core Samples.loaded_defaults) None (Some "Bearer wrong")
  = Ret tt.
Proof.
  exact (unset_client_key_disables_check Samples.plain_int Samples.no_json Samples.only_key
           Samples.loaded_defaults None (Some "Bearer wrong") eq_refl eq_refl).
Defined.

(** X8.  The middle model follows the big model: when [MIDDLE_MODEL] is
    unset, the loaded middle model is the loaded big model, also when
    [BIG_MODEL] is set to something else than its default. *)
Theorem middle_model_follows_big
    (py_int : string -> outcome Z) (json_loads : string -> Settings.loads_result)
    (env : Settings.Environ) (config : Settings.Loaded)
    (Hload : Settings.Config_init py_int json_loads env = Ret config)
    (Hunset : env "MIDDLE_MODEL" = None) :
  middle_model (Settings.core config) = big_model (Settings.core config).
Proof.
  destruct (Config_init_ret _ _ _ _ Hload)
    as (_ & _ & _ & _ & _ & _ & _ & Hm & _).
  unfold Settings.getenv in Hm. now rewrite Hunset in Hm.
Qed.

Lemma middle_model_follows_big_witness :
  middle_model (Settings.core Samples.loaded_defaults)
  = big_model (Settings.core Samples.loaded_defaults).
Proof.
  exact (middle_model_follows_big Samples.plain_int Samples.no_json Samples.only_key
           Samples.loaded_defaults eq_refl eq_refl).
Defined.

Example load_only_key :
  Settings.load Samples.plain_int Samples.no_json Samples.only_key
  = Settings.Configured Samples.loaded_defaults.
Proof. reflexivity. Qed.

(** ** The informational endpoints *)

Section DiagnosticFacts.

Lemma startswith_sk_nonempty k : startswith "sk-" k = true -> nonempty k = true.
Proof. destruct k; [discriminate | reflexivity]. Qed.

Lemma validate_backend_key_spec cfg :
  Settings.validate_api_key cfg = true
  <-> exists k, openai_api_key cfg = Some k /\ startswith "sk-" k = true.
Proof.
  unfold Settings.validate_api_key. destruct (openai_api_key cfg) as [k|].
  - destruct (nonempty k) eqn:Hne.
    + split; [eauto | intros (k' & [= <-] & H); exact H].
    + split; [discriminate|]. intros (k' & [= <-] & H).
      apply startswith_sk_nonempty in H. congruence.
  - split; [discriminate | intros (k & H & _); discriminate].
Qed.

End DiagnosticFacts.

(** X9.  The health report is consistent and never says anything but
    "healthy": it reports the backend key as valid only when it also reports
    it as configured, and valid means exactly that the key starts with
    ["sk-"]; a key of another provider is reported as configured and not
    valid, with the status still "healthy". *)
Theorem health_report_flags (cfg : Config) (now : string) :
  dict_get "status" (Diagnostics.health_check cfg now) = Some (JStr "healthy")
  /\ (Diagnostics.flag "api_key_valid" (Diagnostics.health_check cfg now) = Some true
      <-> exists k, openai_api_key cfg = Some k /\ startswith "sk-" k = true)
  /\ (Diagnostics.flag "api_key_valid" (Diagnostics.health_check cfg now) = Some true ->
      Diagnostics.flag "openai_api_configured" (Diagnostics.health_check cfg now) = Some true).
Proof.
  split; [reflexivity|].
  assert (Hflag : Diagnostics.flag "api_key_valid" (Diagnostics.health_check cfg now)
                  = Some (Settings.validate_api_key cfg)) by reflexivity.
  assert (Hconf : Diagnostics.flag "openai_api_configured" (Diagnostics.health_check cfg now)
                  = Some (truthy (openai_api_key cfg))) by reflexivity.
  rewrite Hflag, Hconf. split.
  - rewrite <- validate_backend_key_spec. split; [now intros [= ->] | now intros ->].
  - intros [= Hv]. apply validate_backend_key_spec in Hv as (k & Hk & Hs).
    rewrite Hk. cbn [truthy]. now rewrite (startswith_sk_nonempty _ Hs).
Qed.

Lemma health_report_flags_witness :
  Diagnostics.flag "openai_api_configured"
    (Diagnostics.health_check (default_config "sk-live") "2025-01-01T00:00:00") = Some true.
Proof.
  exact (proj2 (proj2 (health_report_flags (default_config "sk-live")
                         "2025-01-01T00:00:00")) eq_refl).
Defined.

(** X10.  The informational endpoints never show a key: what [root] answers
    depends on the backend key and the client key only through whether each
    is set and non-empty, and what [health_check] answers only through that
    and whether the backend key starts with ["sk-"]. *)
Theorem informational_endpoints_hide_keys
    (cfg : Config) (now : string) (backend backend' client client' : option string)
    (Hbackend : truthy backend = truthy backend')
    (Hclient : truthy client = truthy client') :
  Diagnostics.root (Settings.with_keys cfg backend client)
  = Diagnostics.root (Settings.with_keys cfg backend' client')
  /\ (Settings.validate_api_key (Settings.with_keys cfg backend client)
      = Settings.validate_api_key (Settings.with_keys cfg backend' client') ->
      Diagnostics.health_check (Settings.with_keys cfg backend client) now
      = Diagnostics.health_check (Settings.with_keys cfg backend' client') now).
Proof.
  unfold Diagnostics.root, Diagnostics.health_check. cbn [Settings.with_keys
    openai_api_key anthropic_api_key openai_base_url max_tokens_limit big_model small_model].
  rewrite Hbackend, Hclient. split; [reflexivity|].
  intros ->. reflexivity.
Qed.

Lemma informational_endpoints_hide_keys_witness :
  Diagnostics.root (Settings.with_keys (default_config "sk-live") (Some "sk-one") None)
  = Diagnostics.root (Settings.with_keys (default_config "sk-live") (Some "sk-two") (Some "")).
Proof.
  exact (proj1 (informational_endpoints_hide_keys (default_config "sk-live") ""
                  (Some "sk-one") (Some "sk-two") None (Some "") eq_refl eq_refl)).
Defined.

(** ** The entry point *)

Section MainFacts.
Import Main.

Lemma split_nil_iff s :
  split s = [] <-> forallb is_space (list_ascii_of_string s) = true.
Proof.
  induction s as [|c rest IH]; cbn [split list_ascii_of_string forallb]; [tauto|].
  destruct (is_space c) eqn:Hc; cbn [andb].
  - exact IH.
  - split; [|discriminate].
    destruct rest as [|c' rest']; [discriminate|].
    destruct (is_space c'); [discriminate|].
    destruct (split (String c' rest')); discriminate.
Qed.

Lemma split_unfold c rest :
  split (String c rest)
  = if is_space c then split rest
    else match rest with
         | EmptyString => [String c EmptyString]
         | String c' _ =>
             if is_space c' then String c EmptyString :: split rest
             else match split rest with
                  | w :: ws => String c w :: ws
                  | [] => [String c EmptyString]
                  end
         end.
Proof. reflexivity. Qed.

Lemma append_cons c s t : String c s ++ t = String c (s ++ t).
Proof. reflexivity. Qed.

Lemma append_empty t : EmptyString ++ t = t.
Proof. reflexivity. Qed.

(** A word followed by white space is the first item of the split. *)
Lemma split_word_then_space c w sp rest :
  is_space c = false ->
  forallb (fun x => negb (is_space x)) (list_ascii_of_string w) = true ->
  is_space sp = true ->
  split (String c w ++ String sp rest) = String c w :: split rest.
Proof.
  revert c. induction w as [|c' w IH]; intros c Hc Hw Hsp.
  - rewrite append_cons, append_empty, split_unfold, Hc, Hsp.
    now rewrite (split_unfold sp), Hsp.
  - cbn [list_ascii_of_string forallb] in Hw. apply andb_true_iff in Hw as [Hc' Hw].
    apply negb_true_iff in Hc'.
    rewrite append_cons, split_unfold, Hc.
    rewrite (IH c' Hc' Hw Hsp). rewrite append_cons, Hc'. reflexivity.
Qed.

Lemma split_single_word c w :
  is_space c = false ->
  forallb (fun x => negb (is_space x)) (list_ascii_of_string w) = true ->
  split (String c w) = [String c w].
Proof.
  revert c. induction w as [|c' w IH]; intros c Hc Hw.
  - now rewrite split_unfold, Hc.
  - cbn [list_ascii_of_string forallb] in Hw. apply andb_true_iff in Hw as [Hc' Hw].
    apply negb_true_iff in Hc'.
    rewrite split_unfold, Hc, Hc'. now rewrite (IH c' Hc' Hw).
Qed.

Lemma effective_level_valid word : In (effective_level word) valid_levels.
Proof.
  unfold effective_level.
  destruct (existsb (String.eqb (lower word)) valid_levels) eqn:E.
  - apply existsb_exists in E as (l & Hin & Heq).
    apply String.eqb_eq in Heq. now subst l.
  - cbn. auto.
Qed.

End MainFacts.

(** X11.  Whenever [main] starts the server, the log level it hands over is
    one of debug, info, warning, error and critical, whatever [LOG_LEVEL]
    holds, and the host and the port are the configured ones, with reload
    off. *)
Theorem served_log_level_is_valid
    (argv : list string) (config : Settings.Loaded)
    (app host : string) (port : Z) (level : string) (reload : bool)
    (Hserve : Main.main argv config = Main.Serve app host port level reload) :
  In level Main.valid_levels
  /\ host = Settings.host config /\ port = Settings.port config /\ reload = false.
Proof.
  unfold Main.main in Hserve.
  destruct (Main.asks_help argv); [discriminate|].
  destruct (Main.split (Settings.log_level config)) as [|word rest]; [discriminate|].
  injection Hserve as _ <- <- <- <-.
  split; [apply effective_level_valid | auto].
Qed.

Lemma served_log_level_is_valid_witness :
  In "info" Main.valid_levels.
Proof.
  exact (proj1 (served_log_level_is_valid ["main.py"]
                  (Samples.with_log_level Samples.loaded_defaults "verbose  # chatty")
                  "src.main:app" "0.0.0.0" 8082 "info" false eq_refl)).
Defined.

(** X12.  [main] fails with an [IndexError] exactly when help is not asked
    for and [LOG_LEVEL] is empty or all white space (the list of its words is
    empty and its first item is taken); with ["--help"] as first argument it
    exits with status 0 whatever the configuration. *)
Theorem blank_log_level_crashes (argv : list string) (config : Settings.Loaded) :
  (Main.asks_help argv = true -> Main.main argv config = Main.Exit 0)
  /\ (Main.asks_help argv = false ->
      (Main.main argv config = Main.Crash Main.IndexError
       <-> forallb Main.is_space (list_ascii_of_string (Settings.log_level config)) = true)).
Proof.
  unfold Main.main. split; intros Hhelp; rewrite Hhelp; [reflexivity|].
  rewrite <- split_nil_iff.
  destruct (Main.split (Settings.log_level config)); split;
    try reflexivity; discriminate.
Qed.

Lemma blank_log_level_crashes_witness :
  Main.main ["main.py"] (Samples.with_log_level Samples.loaded_defaults "  ")
  = Main.Crash Main.IndexError.
Proof.
  exact (proj2 (proj2 (blank_log_level_crashes ["main.py"]
                         (Samples.with_log_level Samples.loaded_defaults "  ")) eq_refl)
           eq_refl).
Defined.

(** X13.  Only the first word of [LOG_LEVEL] counts: what follows the first
    white space after it (a comment, say) changes nothing of what [main]
    does, and neither does white space in front of it. *)
Theorem log_level_first_word
    (argv : list string) (config : Settings.Loaded)
    (c sp : ascii) (word rest : string)
    (Hc : Main.is_space c = false)
    (Hword : forallb (fun x => negb (Main.is_space x)) (list_ascii_of_string word) = true)
    (Hsp : Main.is_space sp = true) :
  Main.main argv (Samples.with_log_level config (String c word ++ String sp rest))
  = Main.main argv (Samples.with_log_level config (String c word))
  /\ Main.main argv (Samples.with_log_level config (String sp (String c word)))
     = Main.main argv (Samples.with_log_level config (String c word)).
Proof.
  unfold Main.main, Samples.with_log_level.
  cbn [Settings.log_level Settings.host Settings.port].
  rewrite (split_unfold sp), Hsp.
  rewrite (split_word_then_space c word sp rest Hc Hword Hsp).
  rewrite (split_single_word c word Hc Hword).
  split; reflexivity.
Qed.

Lemma log_level_first_word_witness :
  Main.main ["main.py"] (Samples.with_log_level Samples.loaded_defaults "DEBUG # verbose")
  = Main.main ["main.py"] (Samples.with_log_level Samples.loaded_defaults "DEBUG").
Proof.
  exact (proj1 (log_level_first_word ["main.py"] Samples.loaded_defaults "D" " " "EBUG"
                  "# verbose" eq_refl eq_refl eq_refl)).
Defined.

Example main_samples :
  Main.main ["main.py"] Samples.loaded_defaults
  = Main.Serve "src.main:app" "0.0.0.0" 8082 "info" false
  /\ Main.main ["main.py"] (Samples.with_log_level Samples.loaded_defaults "Warning")
     = Main.Serve "src.main:app" "0.0.0.0" 8082 "warning" false
  /\ Main.main ["main.py"; "--help"] (Samples.with_log_level Samples.loaded_defaults "")
     = Main.Exit 0
  /\ Main.split "  a b  cd " = ["a"; "b"; "cd"].
Proof. repeat split; reflexivity. Qed.

(** ** The paths of [create_message] *)


(** X14.  [create_message] asks the backend at most once: not at all when
    the translation of the request fails or the caller has gone, and
    otherwise once, through the client chosen for the translated model and
    in the mode (streaming or not) the request asks for. *)
Theorem at_most_one_backend_call
    (cfg : Config) (W : Endpoints.World) (request : ClaudeMessagesRequest)
    (headers : list (string * string)) :
  match Endpoints.convert_claude_to_openai W request with
  | Raise _ =>
      Endpoints.backend_calls (Endpoints.create_message cfg W request headers).1 = []
  | Ret openai_request =>
      Endpoints.backend_calls (Endpoints.create_message cfg W request headers).1
      = if Endpoints.is_disconnected W then []
        else [Endpoints.BackendCall (Endpoints.current_client cfg openai_request)
                (stream request)]
  end.
Proof. exact (create_message_calls cfg W request headers). Qed.

(** X15.  What is not an [Exception] is not swallowed: when a collaborator
    raises an exception outside [Exception] (a cancellation of the request
    task, say), in the translation of the request, when the backend stream
    is opened, in the backend call or in the translation of its answer, that
    exception leaves [create_message] as it is and no 500 is made of it. *)
Theorem cancellation_is_not_swallowed
    (cfg : Config) (W : Endpoints.World) (request : ClaudeMessagesRequest)
    (headers : list (string * string)) (e : exc)
    (Hplain : exc_http e = None)
    (Hbase : exc_is_exception e = false) :
  (Endpoints.convert_claude_to_openai W request = Raise e ->
   (Endpoints.create_message cfg W request headers).2 = Raise e)
  /\ (forall openai_request,
        Endpoints.convert_claude_to_openai W request = Ret openai_request ->
        Endpoints.is_disconnected W = false ->
        (stream request = true ->
         Endpoints.create_chat_completion_stream W
           (Endpoints.current_client cfg openai_request) openai_request = Raise e ->
         (Endpoints.create_message cfg W request headers).2 = Raise e)
        /\ (stream request = false ->
            Endpoints.create_chat_completion W
              (Endpoints.current_client cfg openai_request) openai_request = Raise e ->
            (Endpoints.create_message cfg W request headers).2 = Raise e)
        /\ (forall openai_response,
              stream request = false ->
              Endpoints.create_chat_completion W
                (Endpoints.current_client cfg openai_request) openai_request
              = Ret openai_response ->
              Endpoints.convert_openai_to_claude_response W openai_response request
              = Raise e ->
              (Endpoints.create_message cfg W request headers).2 = Raise e)).
Proof.
  destruct (create_message_raised cfg W request headers e Hplain) as [Hconv Hrest].
  assert (Houter : (Endpoints.outer_except W e).2 = Raise e)
    by now rewrite (outer_except_escapes _ _ Hplain Hbase).
  split.
  - intros Hc. now rewrite (Hconv Hc).
  - intros oreq Hc Hd. destruct (Hrest oreq Hc Hd) as (Hs & Hn & Hr).
    repeat split.
    + intros H1 H2. now rewrite (Hs H1 H2).
    + intros H1 H2. now rewrite (Hn H1 H2).
    + intros r H1 H2 H3. now rewrite (Hr r H1 H2 H3).
Qed.

Lemma cancellation_is_not_swallowed_witness :
  (Endpoints.create_message (default_config "sk-live")
     (Samples.backend_cancelled (default_config "sk-live"))
     (Fixtures.haiku_request false) []).2
  = Raise Samples.cancelled.
Proof.
  exact (proj1 (proj2 (proj2 (cancellation_is_not_swallowed (default_config "sk-live")
                                (Samples.backend_cancelled (default_config "sk-live"))
                                (Fixtures.haiku_request false) [] Samples.cancelled
                                eq_refl eq_refl)
                         Fixtures.haiku_fields eq_refl eq_refl)) eq_refl eq_refl).
Defined.

(** X16.  An [Exception] that is not an [HTTPException] becomes a 500
    whose detail is the text the main client's classifier gives for
    [str(e)], wherever it is raised: in the translation of the request (then
    the backend is not asked), when the backend stream is opened, in the
    backend call or in the translation of its answer; this also holds when
    the request went through the small-model client. *)
Theorem unexpected_failure_is_500
    (cfg : Config) (W : Endpoints.World) (request : ClaudeMessagesRequest)
    (headers : list (string * string)) (e : exc)
    (Hplain : exc_http e = None)
    (Hexc : exc_is_exception e = true) :
  let answer :=
    Endpoints.JSONResponse 500
      (JObj [("detail",
              JStr (Endpoints.classify_openai_error W Endpoints.openai_client (exc_str e)))]) in
  (Endpoints.convert_claude_to_openai W request = Raise e ->
   Endpoints.respond (Endpoints.create_message cfg W request headers).2 = answer)
  /\ (forall openai_request,
        Endpoints.convert_claude_to_openai W request = Ret openai_request ->
        Endpoints.is_disconnected W = false ->
        (stream request = true ->
         Endpoints.create_chat_completion_stream W
           (Endpoints.current_client cfg openai_request) openai_request = Raise e ->
         Endpoints.respond (Endpoints.create_message cfg W request headers).2 = answer)
        /\ (stream request = false ->
            Endpoints.create_chat_completion W
              (Endpoints.current_client cfg openai_request) openai_request = Raise e ->
            Endpoints.respond (Endpoints.create_message cfg W request headers).2 = answer)
        /\ (forall openai_response,
              stream request = false ->
              Endpoints.create_chat_completion W
                (Endpoints.current_client cfg openai_request) openai_request
              = Ret openai_response ->
              Endpoints.convert_openai_to_claude_response W openai_response request
              = Raise e ->
              Endpoints.respond (Endpoints.create_message cfg W request headers).2 = answer)).
Proof.
  cbv zeta.
  destruct (create_message_raised cfg W request headers e Hplain) as [Hconv Hrest].
  assert (Houter : Endpoints.respond (Endpoints.outer_except W e).2
                   = Endpoints.JSONResponse 500
                       (JObj [("detail",
                               JStr (Endpoints.classify_openai_error W Endpoints.openai_client
                                       (exc_str e)))]))
    by now rewrite (outer_except_exception _ _ Hplain Hexc).
  split.
  - intros Hc. now rewrite (Hconv Hc).
  - intros oreq Hc Hd. destruct (Hrest oreq Hc Hd) as (Hs & Hn & Hr).
    repeat split.
    + intros H1 H2. now rewrite (Hs H1 H2).
    + intros H1 H2. now rewrite (Hn H1 H2).
    + intros r H1 H2 H3. now rewrite (Hr r H1 H2 H3).
Qed.

Lemma unexpected_failure_is_500_witness :
  Endpoints.respond
    (Endpoints.create_message (default_config "sk-live")
       (Fixtures.backend_down (default_config "sk-live")) (Fixtures.haiku_request true) []).2
  = Endpoints.JSONResponse 500
      (JObj [("detail", JStr "ConnectError: [Errno 111] Connection refused")]).
Proof.
  exact (proj1 (proj2 (unexpected_failure_is_500 (default_config "sk-live")
                         (Fixtures.backend_down (default_config "sk-live"))
                         (Fixtures.haiku_request true) [] Fixtures.connection_refused
                         eq_refl eq_refl)
                  Fixtures.haiku_fields_streaming eq_refl eq_refl) eq_refl eq_refl).
Defined.

(** X17.  On the non-streaming branch an [HTTPException] of the backend
    call keeps its status and its detail: it is raised again as it is, its
    detail does not go through the classifier, and the caller is answered
    with that status and [{"detail": <detail>}]. *)
Theorem backend_http_error_passes_through
    (cfg : Config) (W : Endpoints.World) (request : ClaudeMessagesRequest)
    (headers : list (string * string)) (openai_request : list (string * json))
    (e : exc) (status : Z) (detail : string)
    (Hconv : Endpoints.convert_claude_to_openai W request = Ret openai_request)
    (Hconn : Endpoints.is_disconnected W = false)
    (Hplain : stream request = false)
    (Hcall : Endpoints.create_chat_completion W
               (Endpoints.current_client cfg openai_request) openai_request = Raise e)
    (Hhttp : exc_http e = Some (status, detail)) :
  (Endpoints.create_message cfg W request headers).2 = Raise e
  /\ Endpoints.respond (Endpoints.create_message cfg W request headers).2
     = Endpoints.http_exception_handler status detail
  /\ (Endpoints.body_allowed status = true ->
      Endpoints.respond (Endpoints.create_message cfg W request headers).2
      = Endpoints.JSONResponse status (JObj [("detail", JStr detail)])).
Proof.
  assert (Hout : (Endpoints.create_message cfg W request headers).2 = Raise e).
  { rewrite (create_message_connected _ _ _ _ _ Hconv Hconn), Hplain, Hcall.
    cbn [Endpoints.after snd]. unfold Endpoints.outer_except. now rewrite Hhttp. }
  rewrite Hout. cbn [Endpoints.respond]. rewrite Hhttp.
  repeat split. intros Hb. unfold Endpoints.http_exception_handler. now rewrite Hb.
Qed.

Lemma backend_http_error_passes_through_witness :
  Endpoints.respond
    (Endpoints.create_message (default_config "sk-live")
       (Samples.answers_429 (default_config "sk-live")) (Fixtures.haiku_request false) []).2
  = Endpoints.JSONResponse 429 (JObj [("detail", JStr "Rate limit exceeded")]).
Proof.
  exact (proj2 (proj2 (backend_http_error_passes_through (default_config "sk-live")
                         (Samples.answers_429 (default_config "sk-live"))
                         (Fixtures.haiku_request false) [] Fixtures.haiku_fields
                         Fixtures.rate_limited 429 "Rate limit exceeded"
                         eq_refl eq_refl eq_refl eq_refl eq_refl)) eq_refl).
Defined.

(** X18.  When everything succeeds the caller gets, for a streaming
    request, a streaming response of type [text/event-stream] with the four
    fixed headers, whose events are the converter's for the stream that the
    chosen client opened; and for any other request status 200 with the
    translated answer of the chosen client. *)
Theorem successful_answers
    (cfg : Config) (W : Endpoints.World) (request : ClaudeMessagesRequest)
    (headers : list (string * string)) (openai_request : list (string * json))
    (Hconv : Endpoints.convert_claude_to_openai W request = Ret openai_request)
    (Hconn : Endpoints.is_disconnected W = false) :
  (forall openai_stream,
      stream request = true ->
      Endpoints.create_chat_completion_stream W
        (Endpoints.current_client cfg openai_request) openai_request = Ret openai_stream ->
      (Endpoints.create_message cfg W request headers).2
      = Ret (Endpoints.StreamingResponse
               (Endpoints.convert_openai_streaming_to_claude_with_cancellation W
                  openai_stream request (Endpoints.current_client cfg openai_request))
               "text/event-stream"
               [("Cache-Control", "no-cache"); ("Connection", "keep-alive");
                ("Access-Control-Allow-Origin", "*"); ("Access-Control-Allow-Headers", "*")]))
  /\ (forall openai_response claude_response,
        stream request = false ->
        Endpoints.create_chat_completion W
          (Endpoints.current_client cfg openai_request) openai_request = Ret openai_response ->
        Endpoints.convert_openai_to_claude_response W openai_response request
        = Ret claude_response ->
        (Endpoints.create_message cfg W request headers).2
        = Ret (Endpoints.JSONResponse 200 claude_response)).
Proof.
  rewrite (create_message_connected _ _ _ _ _ Hconv Hconn). split.
  - intros s Hs Hopen. now rewrite Hs, Hopen.
  - intros r c Hs Hcall Hresp. now rewrite Hs, Hcall, Hresp.
Qed.

Lemma successful_answers_witness :
  (Endpoints.create_message (default_config "sk-live") (Fixtures.calm (default_config "sk-live"))
     (Fixtures.haiku_request false) []).2
  = Ret (Endpoints.JSONResponse 200 (JObj [])).
Proof.
  exact (proj2 (successful_answers (default_config "sk-live")
                  (Fixtures.calm (default_config "sk-live")) (Fixtures.haiku_request false) []
                  Fixtures.haiku_fields eq_refl eq_refl)
           [("id", JStr "chatcmpl-1")] (JObj []) eq_refl eq_refl eq_refl).
Defined.

(** X19.  A request that fails the key check is answered with status 401
    and the fixed detail before the handler runs: the answer is the same
    whatever the request, its headers and the collaborators are. *)
Theorem rejected_key_is_answered_401
    (cfg : Config) (W : Endpoints.World)
    (x_api_key authorization : option string)
    (request : ClaudeMessagesRequest) (headers : list (string * string))
    (Hrejected : Auth.validate_api_key cfg x_api_key authorization <> Ret tt) :
  Endpoints.post_v1_messages cfg W x_api_key authorization request headers
  = Endpoints.JSONResponse 401
      (JObj [("detail", JStr "Invalid API key. Please provide a valid Anthropic API key.")]).
Proof.
  unfold Endpoints.post_v1_messages.
  unfold Auth.validate_api_key in *.
  destruct (negb (truthy (anthropic_api_key cfg))); [congruence|].
  destruct (match Auth.client_api_key x_api_key authorization with
            | Some k => (negb (nonempty k) || negb (validate_client_api_key cfg k))%bool
            | None => true
            end); [reflexivity | congruence].
Qed.

Lemma rejected_key_is_answered_401_witness :
  Endpoints.post_v1_messages (Fixtures.keyed_config "sk-key")
    (Fixtures.calm (Fixtures.keyed_config "sk-key")) None (Some "Bearer wrong")
    (Fixtures.haiku_request false) []
  = Endpoints.JSONResponse 401
      (JObj [("detail", JStr "Invalid API key. Please provide a valid Anthropic API key.")]).
Proof.
  apply rejected_key_is_answered_401. vm_compute. discriminate.
Defined.

(** X20.  [test_connection] asks the main client only, with the name of
    the small model.  When that call returns, the answer is status 200 with
    the response id, or "unknown" when the answer has none; when it raises an
    [Exception], the answer is status 503 with [str(e)] as message; what is
    not an [Exception] leaves the endpoint as it is.  The outcome is the same
    for any two backends whose main client behaves the same, whatever a
    separate small-model client would do. *)
Theorem test_connection_asks_main_client
    (cfg : Config) (W W' : Endpoints.World)
    (Hmain : Endpoints.create_chat_completion W Endpoints.openai_client
               (Endpoints.test_request cfg)
             = Endpoints.create_chat_completion W' Endpoints.openai_client
                 (Endpoints.test_request cfg))
    (Hclock : Endpoints.now_isoformat W = Endpoints.now_isoformat W') :
  Endpoints.test_connection cfg W = Endpoints.test_connection cfg W'
  /\ assoc_get "model" (Endpoints.test_request cfg) = Some (JStr (small_model cfg))
  /\ (forall r,
        Endpoints.create_chat_completion W Endpoints.openai_client
          (Endpoints.test_request cfg) = Ret r ->
        exists fields,
          Endpoints.test_connection cfg W = Ret (Endpoints.JSONResponse 200 (JObj fields))
          /\ assoc_get "status" fields = Some (JStr "success")
          /\ assoc_get "response_id" fields
             = Some (match assoc_get "id" r with
                     | Some id => id
                     | None => JStr "unknown"
                     end))
  /\ (forall e,
        Endpoints.create_chat_completion W Endpoints.openai_client
          (Endpoints.test_request cfg) = Raise e ->
        (is_exception e = true ->
         exists fields,
           Endpoints.test_connection cfg W = Ret (Endpoints.JSONResponse 503 (JObj fields))
           /\ assoc_get "status" fields = Some (JStr "failed")
           /\ assoc_get "message" fields = Some (JStr (exc_str e)))
        /\ (is_exception e = false -> Endpoints.test_connection cfg W = Raise e)).
Proof.
  unfold Endpoints.test_connection, Endpoints.connection_failed.
  rewrite <- Hmain, <- Hclock.
  split; [reflexivity|]. split; [reflexivity|]. split.
  - intros r Hr. rewrite Hr. eexists. split; [reflexivity|]. split; [reflexivity|].
    cbn. now destruct (assoc_get "id" r).
  - intros e He. rewrite He. split; intros Hx; rewrite Hx; [|reflexivity].
    eexists. split; [reflexivity|]. split; reflexivity.
Qed.

Lemma test_connection_asks_main_client_witness :
  Endpoints.test_connection (default_config "sk-live")
    (Fixtures.calm (default_config "sk-live"))
  = Endpoints.test_connection (default_config "sk-live")
      (Fixtures.caller_gone (default_config "sk-live")).
Proof.
  exact (proj1 (test_connection_asks_main_client (default_config "sk-live")
                  (Fixtures.calm (default_config "sk-live"))
                  (Fixtures.caller_gone (default_config "sk-live")) eq_refl eq_refl)).
Defined.

(** ** The token estimate, further *)

Section EstimateFacts.
Import Tokens.

Lemma sum_permutation (l l' : list Z) :
  Permutation l l' -> fold_right Z.add 0 l = fold_right Z.add 0 l'.
Proof.
  induction 1 as [|x l l' _ IH|x y l|l l' l'' _ IH1 _ IH2]; cbn [fold_right];
    [reflexivity | now rewrite IH | lia | congruence].
Qed.

Lemma sum_app (l l' : list Z) :
  fold_right Z.add 0 (l ++ l') = fold_right Z.add 0 l + fold_right Z.add 0 l'.
Proof. induction l as [|x l IH]; cbn [app fold_right]; lia. Qed.

Lemma content_chars_nonneg c : 0 <= content_chars c.
Proof.
  destruct c as [[s|bs]|]; cbn [content_chars];
    [apply len_nonneg | apply text_chars_nonneg | lia].
Qed.

Lemma messages_chars_nonneg (msgs : list ClaudeMessage) :
  0 <= fold_right Z.add 0 (map (fun m => content_chars (content m)) msgs).
Proof.
  induction msgs as [|m msgs IH]; cbn [map fold_right]; [lia|].
  pose proof (content_chars_nonneg (content m)). lia.
Qed.

Lemma described_chars_nonneg request : 0 <= described_chars request.
Proof.
  unfold described_chars.
  pose proof (content_chars_nonneg (system request)).
  pose proof (messages_chars_nonneg (messages request)). lia.
Qed.

End EstimateFacts.

(** X21.  The estimate does not depend on the order of the messages: the
    same messages in another order give the same count. *)
Theorem estimate_ignores_order
    (the_model : string) (msgs msgs' : list ClaudeMessage) (sys : option Content)
    (Hperm : Permutation msgs msgs') :
  Tokens.count_tokens
    {| Tokens.model := the_model; Tokens.messages := msgs; Tokens.system := sys |}
  = Tokens.count_tokens
      {| Tokens.model := the_model; Tokens.messages := msgs'; Tokens.system := sys |}.
Proof.
  unfold Tokens.count_tokens, Tokens.estimated_tokens.
  rewrite !total_chars_described. unfold Tokens.described_chars.
  cbn [Tokens.system Tokens.messages].
  rewrite (sum_permutation _ _ (Permutation_map _ Hperm)). reflexivity.
Qed.

Lemma estimate_ignores_order_witness :
  Tokens.count_tokens
    {| Tokens.model := "m"; Tokens.messages := Samples.two_messages; Tokens.system := None |}
  = Tokens.count_tokens
      {| Tokens.model := "m"; Tokens.messages := rev Samples.two_messages;
         Tokens.system := None |}.
Proof.
  exact (estimate_ignores_order "m" Samples.two_messages (rev Samples.two_messages) None
           (Permutation_rev Samples.two_messages)).
Defined.

(** X22.  The estimate is the character count divided by four, rounded
    down, from four characters on, and 1 below that (also for a request with
    no text at all); adding messages to a request never lowers it. *)
Theorem estimate_bounds
    (the_model : string) (msgs more : list ClaudeMessage) (sys : option Content) :
  let request :=
    {| Tokens.model := the_model; Tokens.messages := msgs; Tokens.system := sys |} in
  let longer :=
    {| Tokens.model := the_model; Tokens.messages := msgs ++ more; Tokens.system := sys |} in
  0 <= Tokens.total_chars request
  /\ (Tokens.total_chars request < 4 -> Tokens.estimated_tokens request = 1)
  /\ (4 <= Tokens.total_chars request ->
      4 * Tokens.estimated_tokens request <= Tokens.total_chars request
      < 4 * Tokens.estimated_tokens request + 4)
  /\ Tokens.estimated_tokens request <= Tokens.estimated_tokens longer.
Proof.
  cbv zeta. unfold Tokens.estimated_tokens. rewrite !total_chars_described.
  set (request := {| Tokens.model := the_model; Tokens.messages := msgs;
                     Tokens.system := sys |}).
  set (longer := {| Tokens.model := the_model; Tokens.messages := msgs ++ more;
                    Tokens.system := sys |}).
  pose proof (described_chars_nonneg request) as Hn.
  assert (Hle : Tokens.described_chars request <= Tokens.described_chars longer).
  { unfold Tokens.described_chars, request, longer. cbn [Tokens.system Tokens.messages].
    rewrite map_app, sum_app. pose proof (messages_chars_nonneg more). lia. }
  split; [exact Hn|]. split; [|split].
  - intros Hlt. rewrite Z.div_small by lia. lia.
  - intros Hge.
    pose proof (Z.div_mod (Tokens.described_chars request) 4 ltac:(lia)) as Hdm.
    pose proof (Z.mod_pos_bound (Tokens.described_chars request) 4 ltac:(lia)) as Hmb.
    assert (1 <= Tokens.described_chars request / 4)
      by (apply Z.div_le_lower_bound; lia).
    lia.
  - pose proof (Z.div_le_mono _ _ 4 ltac:(lia) Hle). lia.
Qed.

Lemma estimate_bounds_witness :
  Tokens.estimated_tokens
    {| Tokens.model := "m"; Tokens.messages := []; Tokens.system := Some (Str "abc") |} = 1.
Proof.
  exact (proj1 (proj2 (estimate_bounds "m" [] [] (Some (Str "abc")))) eq_refl).
Defined.

(** X23.  The header log has an entry for every header of the request and
    for nothing else: its keys are the keys of the headers, so no header is
    left out of the log and masking never removes one. *)
Theorem masked_headers_keys (items : list (string * string)) (k : string) :
  is_Some (Headers.masked_headers items !! k) <-> In k (map fst items).
Proof.
  rewrite <- last_value_some_key.
  unfold Headers.masked_headers. rewrite masked_fold_lookup, lookup_empty.
  destruct (Headers.last_value k items) as [v|]; split; intros [x Hx]; eauto; discriminate.
Qed.
